(** * A pausable countdown timer (django-countdowntimer-model)

    Shallow embedding of [countdowntimer_model/models.py]: the abstract
    Django model [CountdownTimer], its [save] override (the recalculation)
    and its time queries.

    Modelling decisions, all taken from the source:

    - a [timedelta] is its total number of microseconds, an integer; the
      attribute [.seconds] is recovered from it the way Python normalises
      a timedelta (days, seconds within the day, microseconds);
    - an aware [datetime] is an instant (microseconds since the epoch, in
      UTC) together with its time zone.  Python compares and subtracts
      aware datetimes by instant, and adding a timedelta keeps the zone;
      with pytz every zone object carries a fixed offset, so the sum moves
      the instant by exactly the timedelta;
    - the methods read and write the fields of [self] and read the system
      clock; they are written in a state-and-exception monad over the
      instance and the number of clock readings made so far.  A raised
      exception keeps the mutations made before it, as in Python;
    - [None] is [option]'s [None]; an operation Python rejects on [None]
      raises [TypeError];
    - the write to the database that ends [save] is Django's and may
      raise; it is a parameter of [save], and a write that raises leaves
      the fields assigned before it and skips the statement after it;
    - the range limits of Python's [datetime] and [timedelta] (years 1 to
      9999) are not modelled: instants and durations are unbounded
      integers. *)

From Stdlib Require Import ZArith List String Bool Lia.
Import ListNotations.
Local Open Scope Z_scope.

(** ** Durations and instants *)

Module Datetime.

Definition timedelta := Z.

Definition us_per_second : Z := 1000000.
Definition us_per_minute : Z := 60 * us_per_second.
Definition us_per_hour : Z := 60 * us_per_minute.
Definition us_per_day : Z := 24 * us_per_hour.

(** [timedelta()] and [timedelta(0)]. *)
Definition td_zero : timedelta := 0.

(** [timedelta(minutes=m)]. *)
Definition td_minutes (m : Z) : timedelta := m * us_per_minute.

(** The normalised components of a timedelta: [d.days], [d.seconds]
    (0 <= seconds < 86400) and [d.microseconds]. *)
Definition td_days (d : timedelta) : Z := d / us_per_day.
Definition td_seconds (d : timedelta) : Z := (d mod us_per_day) / us_per_second.
Definition td_microseconds (d : timedelta) : Z := d mod us_per_second.

(** [d.total_seconds()], floored to whole seconds. *)
Definition td_total_seconds (d : timedelta) : Z := d / us_per_second.

Inductive tzinfo : Type :=
| UTC
| Zone (name : string).

Record datetime : Type := mk_datetime {
  instant : Z;
  tz : tzinfo
}.

(** [dt + delta], [a - b] and [a > b] on aware datetimes. *)
Definition dt_add (dt : datetime) (delta : timedelta) : datetime :=
  mk_datetime (instant dt + delta) (tz dt).
Definition dt_sub (a b : datetime) : timedelta := instant a - instant b.
Definition dt_gt (a b : datetime) : bool := instant b <? instant a.

(** Python's [round(n / d)] for integers [0 <= n], [0 < d]: the quotient
    rounded to the nearest integer, ties to the even one.  For the
    operands that occur here ([n < 86400], [d = 60]) the float quotient
    is a half-integer exactly when [n mod 60 = 30], and is then exact, so
    the integer computation below agrees with the float one. *)
Definition round_div (n d : Z) : Z :=
  let q := n / d in
  let r := n mod d in
  if 2 * r <? d then q
  else if d <? 2 * r then q + 1
  else if Z.even q then q else q + 1.

(** [round(abs(delta.seconds / 60))]. *)
Definition minutes_of (delta : timedelta) : Z :=
  round_div (Z.abs (td_seconds delta)) 60.

End Datetime.
Import Datetime.

(** ** The instance *)

Inductive exn : Type :=
| TypeError
| AttributeError
| UnknownTimeZoneError
| TenantError
| DatabaseError.

Inductive res (A : Type) : Type :=
| Ok (a : A)
| Raise (e : exn).
Arguments Ok {A} a.
Arguments Raise {A} e.

(** The owning tenant, which is not part of this package: an object with
    a method [aware_now_dt].  The method runs on the clock only (it is
    given the number of readings made so far and returns the new count);
    it returns an aware datetime or raises. *)
Record Tenant : Type := mk_tenant {
  aware_now_dt : nat -> res datetime * nat
}.

(** [class STATE]. *)
Module STATE.
Definition PAUSED : Z := 1.
Definition RUNNING : Z := 2.
End STATE.

(** The fields of a [CountdownTimer] instance, the private attribute
    [__original_duration_in_minutes] and the attribute [tenant] a subclass
    may add ([None] when the instance has no such attribute). *)
Record CountdownTimer : Type := mk_timer {
  duration_in_minutes : Z;
  state : Z;
  timezone_override : option string;
  start_date_offset_in_minutes : Z;
  paused_at : option datetime;
  cumulative_pause_duration : timedelta;
  original_start_at : option datetime;
  original_end_at : option datetime;
  modified_start_at : option datetime;
  modified_end_at : option datetime;
  __original_duration_in_minutes : Z;
  tenant : option Tenant
}.

Definition set_duration_in_minutes (v : Z) (t : CountdownTimer) :=
  mk_timer v (state t) (timezone_override t) (start_date_offset_in_minutes t)
    (paused_at t) (cumulative_pause_duration t) (original_start_at t)
    (original_end_at t) (modified_start_at t) (modified_end_at t)
    (__original_duration_in_minutes t) (tenant t).
Definition set_state (v : Z) (t : CountdownTimer) :=
  mk_timer (duration_in_minutes t) v (timezone_override t)
    (start_date_offset_in_minutes t)
    (paused_at t) (cumulative_pause_duration t) (original_start_at t)
    (original_end_at t) (modified_start_at t) (modified_end_at t)
    (__original_duration_in_minutes t) (tenant t).
Definition set_timezone_override (v : option string) (t : CountdownTimer) :=
  mk_timer (duration_in_minutes t) (state t) v (start_date_offset_in_minutes t)
    (paused_at t) (cumulative_pause_duration t) (original_start_at t)
    (original_end_at t) (modified_start_at t) (modified_end_at t)
    (__original_duration_in_minutes t) (tenant t).
Definition set_start_date_offset_in_minutes (v : Z) (t : CountdownTimer) :=
  mk_timer (duration_in_minutes t) (state t) (timezone_override t) v
    (paused_at t) (cumulative_pause_duration t) (original_start_at t)
    (original_end_at t) (modified_start_at t) (modified_end_at t)
    (__original_duration_in_minutes t) (tenant t).
Definition set_paused_at (v : option datetime) (t : CountdownTimer) :=
  mk_timer (duration_in_minutes t) (state t) (timezone_override t)
    (start_date_offset_in_minutes t)
    v (cumulative_pause_duration t) (original_start_at t)
    (original_end_at t) (modified_start_at t) (modified_end_at t)
    (__original_duration_in_minutes t) (tenant t).
Definition set_cumulative_pause_duration (v : timedelta) (t : CountdownTimer) :=
  mk_timer (duration_in_minutes t) (state t) (timezone_override t)
    (start_date_offset_in_minutes t)
    (paused_at t) v (original_start_at t)
    (original_end_at t) (modified_start_at t) (modified_end_at t)
    (__original_duration_in_minutes t) (tenant t).
Definition set_original_start_at (v : option datetime) (t : CountdownTimer) :=
  mk_timer (duration_in_minutes t) (state t) (timezone_override t)
    (start_date_offset_in_minutes t)
    (paused_at t) (cumulative_pause_duration t) v
    (original_end_at t) (modified_start_at t) (modified_end_at t)
    (__original_duration_in_minutes t) (tenant t).
Definition set_original_end_at (v : option datetime) (t : CountdownTimer) :=
  mk_timer (duration_in_minutes t) (state t) (timezone_override t)
    (start_date_offset_in_minutes t)
    (paused_at t) (cumulative_pause_duration t) (original_start_at t)
    v (modified_start_at t) (modified_end_at t)
    (__original_duration_in_minutes t) (tenant t).
Definition set_modified_start_at (v : option datetime) (t : CountdownTimer) :=
  mk_timer (duration_in_minutes t) (state t) (timezone_override t)
    (start_date_offset_in_minutes t)
    (paused_at t) (cumulative_pause_duration t) (original_start_at t)
    (original_end_at t) v (modified_end_at t)
    (__original_duration_in_minutes t) (tenant t).
Definition set_modified_end_at (v : option datetime) (t : CountdownTimer) :=
  mk_timer (duration_in_minutes t) (state t) (timezone_override t)
    (start_date_offset_in_minutes t)
    (paused_at t) (cumulative_pause_duration t) (original_start_at t)
    (original_end_at t) (modified_start_at t) v
    (__original_duration_in_minutes t) (tenant t).
Definition set___original_duration_in_minutes (v : Z) (t : CountdownTimer) :=
  mk_timer (duration_in_minutes t) (state t) (timezone_override t)
    (start_date_offset_in_minutes t)
    (paused_at t) (cumulative_pause_duration t) (original_start_at t)
    (original_end_at t) (modified_start_at t) (modified_end_at t)
    v (tenant t).

(** [CountdownTimer.__init__] for a new record: the caller gives the
    configuration fields, the managed fields take their defaults
    ([None], and [timedelta()] for the cumulative pause), and the duration
    is remembered. *)
Definition __init__ (duration st : Z) (tzo : option string) (offset : Z)
    (tn : option Tenant) : CountdownTimer :=
  mk_timer duration st tzo offset None td_zero None None None None duration tn.

(** ** The monad of the methods *)

(** What a method runs on: the instance and the number of readings of the
    system clock made so far. *)
Record Env : Type := mk_env {
  self : CountdownTimer;
  reads : nat
}.

Definition M (A : Type) : Type := Env -> res A * Env.

Definition ret {A} (a : A) : M A := fun e => (Ok a, e).
Definition raise {A} (x : exn) : M A := fun e => (Raise x, e).
Definition bind {A B} (m : M A) (k : A -> M B) : M B :=
  fun e => match m e with
           | (Ok a, e') => k a e'
           | (Raise x, e') => (Raise x, e')
           end.
(** [try: m  except Exception: h]. *)
Definition try_except {A} (m : M A) (h : M A) : M A :=
  fun e => match m e with
           | (Ok a, e') => (Ok a, e')
           | (Raise _, e') => h e'
           end.

Declare Scope timer_scope.
Delimit Scope timer_scope with timer.
Notation "x <- m ;; k" := (bind m (fun x => k))
  (at level 61, m at next level, right associativity) : timer_scope.
Notation "m ;; k" := (bind m (fun _ => k))
  (at level 61, right associativity) : timer_scope.
Local Open Scope timer_scope.

Definition get_self : M CountdownTimer := fun e => (Ok (self e), e).
Definition update_self (f : CountdownTimer -> CountdownTimer) : M unit :=
  fun e => (Ok tt, mk_env (f (self e)) (reads e)).

(** Operators on values that may be [None]. *)
Definition dt_minus (a b : option datetime) : M timedelta :=
  match a, b with
  | Some x, Some y => ret (dt_sub x y)
  | _, _ => raise TypeError
  end.
Definition dt_plus (a : option datetime) (d : timedelta) : M datetime :=
  match a with
  | Some x => ret (dt_add x d)
  | None => raise TypeError
  end.
Definition dt_greater (a b : option datetime) : M bool :=
  match a, b with
  | Some x, Some y => ret (dt_gt x y)
  | _, _ => raise TypeError
  end.

(** Truth value of a string: the empty string is false. *)
Definition str_truthy (s : string) : bool :=
  match s with
  | EmptyString => false
  | _ => true
  end.

(** Runs the tenant's [aware_now_dt]; a missing [tenant] attribute raises
    [AttributeError]. *)
Definition tenant_aware_now_dt : M datetime :=
  fun e => match tenant (self e) with
           | None => (Raise AttributeError, e)
           | Some tn => let '(r, n) := aware_now_dt tn (reads e) in
                        (r, mk_env (self e) n)
           end.

Section Methods.

(** The system clock: [utcnow n] is the instant returned by the [n]-th
    call of [datetime.utcnow()]. *)
Variable utcnow : nat -> Z.

(** The zone names [pytz.timezone] resolves; any other name makes it
    raise [UnknownTimeZoneError]. *)
Variable known_timezone : string -> bool.

(** [models.Model.save], Django's own [save]: the write to the database.
    It is given the instance and the moment of the call (the number of
    clock readings made so far); it returns or raises, and leaves the
    fields of the timer as they are. *)
Variable model_save : CountdownTimer -> nat -> res unit.

Definition datetime_utcnow : M Z :=
  fun e => (Ok (utcnow (reads e)), mk_env (self e) (S (reads e))).

Definition pytz_timezone (name : string) : M tzinfo :=
  if known_timezone name then ret (Zone name) else raise UnknownTimeZoneError.

Definition _now_dt : M datetime :=
  t <- get_self ;;
  match timezone_override t with
  | Some name =>
      if str_truthy name then
        timezone_override <- pytz_timezone name ;;
        u <- datetime_utcnow ;;
        ret (mk_datetime u timezone_override)
      else
        u <- datetime_utcnow ;;
        ret (mk_datetime u UTC)
  | None =>
      u <- datetime_utcnow ;;
      ret (mk_datetime u UTC)
  end.

Definition _pause_delta : M timedelta :=
  t <- get_self ;;
  match paused_at t with
  | Some p =>
      now <- _now_dt ;;
      t <- get_self ;;
      dt_minus (Some now) (paused_at t)
  | None => ret td_zero
  end.

Definition _cumulative_pause_duration_in_minutes : M Z :=
  t <- get_self ;;
  ret (minutes_of (cumulative_pause_duration t)).

Definition _conditional_pause_delta : M timedelta :=
  t <- get_self ;;
  if state t =? STATE.PAUSED then
    now <- _now_dt ;;
    t <- get_self ;;
    dt_minus (Some now) (paused_at t)
  else ret td_zero.

(** [super().save()], with the arguments of [save] passed on. *)
Definition super_save : M unit :=
  fun e => (model_save (self e) (reads e), e).

Definition save : M unit :=
  now_dt <- _now_dt ;;
  t <- get_self ;;
  (if duration_in_minutes t =? __original_duration_in_minutes t then ret tt
   else
     update_self (set_original_start_at None) ;;
     update_self (set_paused_at None) ;;
     update_self (set_cumulative_pause_duration td_zero)) ;;
  t <- get_self ;;
  (match original_start_at t with
   | None =>
       update_self (set_original_start_at
         (Some (dt_add now_dt (td_minutes (start_date_offset_in_minutes t))))) ;;
       t <- get_self ;;
       e <- dt_plus (original_start_at t) (td_minutes (duration_in_minutes t)) ;;
       update_self (set_original_end_at (Some e))
   | Some _ => ret tt
   end) ;;
  t <- get_self ;;
  (if state t =? STATE.PAUSED then
     match paused_at t with
     | None => update_self (set_paused_at (Some now_dt))
     | Some _ => ret tt
     end
   else
     match paused_at t with
     | Some _ =>
         d <- _pause_delta ;;
         update_self (set_cumulative_pause_duration
                        (cumulative_pause_duration t + d)) ;;
         update_self (set_paused_at None)
     | None => ret tt
     end) ;;
  t <- get_self ;;
  ms <- dt_plus (original_start_at t) (cumulative_pause_duration t) ;;
  update_self (set_modified_start_at (Some ms)) ;;
  t <- get_self ;;
  me <- dt_plus (original_end_at t) (cumulative_pause_duration t) ;;
  update_self (set_modified_end_at (Some me)) ;;
  super_save ;;
  t <- get_self ;;
  update_self (set___original_duration_in_minutes (duration_in_minutes t)).

Definition remaining_time : M timedelta :=
  now_dt <- try_except tenant_aware_now_dt _now_dt ;;
  d <- _conditional_pause_delta ;;
  t <- get_self ;;
  end_dt <- dt_plus (modified_end_at t) d ;;
  if dt_gt now_dt end_dt then ret td_zero
  else ret (dt_sub end_dt now_dt).

Definition remaining_time_in_minutes : M Z :=
  d <- remaining_time ;;
  ret (minutes_of d).

Definition remaining_future_datetime : M datetime :=
  remaining_time_in_minutes <- remaining_time_in_minutes ;;
  now <- _now_dt ;;
  ret (dt_add now (td_minutes remaining_time_in_minutes)).

Definition time_elapsed : M timedelta :=
  now_dt <- _now_dt ;;
  d <- _conditional_pause_delta ;;
  t <- get_self ;;
  start_dt <- dt_plus (original_start_at t) d ;;
  if dt_gt start_dt now_dt then ret td_zero
  else ret (dt_sub now_dt start_dt).

Definition time_elapsed_in_minutes : M Z :=
  d <- time_elapsed ;;
  ret (minutes_of d).

Definition time_elapsed_since_beginning : M timedelta :=
  now_dt <- _now_dt ;;
  t <- get_self ;;
  b <- dt_greater (original_start_at t) (Some now_dt) ;;
  if b then ret td_zero
  else dt_minus (Some now_dt) (original_start_at t).

Definition time_elapsed_since_beginning_in_minutes : M Z :=
  d <- time_elapsed_since_beginning ;;
  ret (minutes_of d).

End Methods.

(** ** Reading the code in steps *)

(** The zone [_now_dt] expresses the current instant in, or the exception
    [pytz.timezone] raises. *)
Definition zone_of (known_timezone : string -> bool) (t : CountdownTimer)
    : res tzinfo :=
  match timezone_override t with
  | Some name =>
      if str_truthy name then
        if known_timezone name then Ok (Zone name) else Raise UnknownTimeZoneError
      else Ok UTC
  | None => Ok UTC
  end.

(** The first block of [save]: a changed duration erases the progress. *)
Definition rearm_check (t : CountdownTimer) : CountdownTimer :=
  if duration_in_minutes t =? __original_duration_in_minutes t then t
  else set_cumulative_pause_duration td_zero
         (set_paused_at None (set_original_start_at None t)).

(** The part of [remaining_time] that follows the choice of [now_dt]. *)
Definition remaining_time_at (utcnow : nat -> Z) (known_timezone : string -> bool)
    (now_dt : datetime) : M timedelta :=
  d <- _conditional_pause_delta utcnow known_timezone ;;
  t <- get_self ;;
  end_dt <- dt_plus (modified_end_at t) d ;;
  if dt_gt now_dt end_dt then ret td_zero
  else ret (dt_sub end_dt now_dt).

Definition set_tenant (v : option Tenant) (t : CountdownTimer) :=
  mk_timer (duration_in_minutes t) (state t) (timezone_override t)
    (start_date_offset_in_minutes t)
    (paused_at t) (cumulative_pause_duration t) (original_start_at t)
    (original_end_at t) (modified_start_at t) (modified_end_at t)
    (__original_duration_in_minutes t) v.

(** An assignment to a field by the caller, between two method calls. *)
Definition assign (f : CountdownTimer -> CountdownTimer) (e : Env) : Env :=
  mk_env (f (self e)) (reads e).

Definition map_res {A B} (f : A -> B) (r : res A) : res B :=
  match r with
  | Ok a => Ok (f a)
  | Raise x => Raise x
  end.

(** The second block of [save]: the original dates are set when the
    start is missing. *)
Definition arm (now : datetime) (t : CountdownTimer) : CountdownTimer :=
  match original_start_at t with
  | None =>
      let s := dt_add now (td_minutes (start_date_offset_in_minutes t)) in
      set_original_end_at (Some (dt_add s (td_minutes (duration_in_minutes t))))
        (set_original_start_at (Some s) t)
  | Some _ => t
  end.

(** The third block of [save]: entering and leaving the pause.  [now] is
    the reading [save] starts with and [later] the reading [_pause_delta]
    makes. *)
Definition pause_step (now later : datetime) (t : CountdownTimer)
    : CountdownTimer :=
  if state t =? STATE.PAUSED then
    match paused_at t with
    | None => set_paused_at (Some now) t
    | Some _ => t
    end
  else
    match paused_at t with
    | Some p =>
        set_paused_at None
          (set_cumulative_pause_duration
             (cumulative_pause_duration t + dt_sub later p) t)
    | None => t
    end.

(** Whether the third block calls [_pause_delta], which reads the clock
    once more. *)
Definition leaves_pause (t : CountdownTimer) : bool :=
  negb (state t =? STATE.PAUSED) &&
  match paused_at t with Some _ => true | None => false end.

(** The last block of [save]: the modified dates, then the write, made
    at the moment [n], and after a write that returned the duration is
    remembered. *)
Definition remodify (model_save : CountdownTimer -> nat -> res unit)
    (n : nat) (t : CountdownTimer) : res unit * CountdownTimer :=
  match original_start_at t with
  | None => (Raise TypeError, t)
  | Some s =>
      let t1 :=
        set_modified_start_at (Some (dt_add s (cumulative_pause_duration t))) t in
      match original_end_at t with
      | None => (Raise TypeError, t1)
      | Some e =>
          let t2 :=
            set_modified_end_at
              (Some (dt_add e (cumulative_pause_duration t))) t1 in
          match model_save t2 n with
          | Ok _ =>
              (Ok tt,
               set___original_duration_in_minutes (duration_in_minutes t) t2)
          | Raise x => (Raise x, t2)
          end
      end
  end.

(** The result of a [save] that finds the duration changed. *)
Definition rearmed (now : datetime) (t : CountdownTimer) : CountdownTimer :=
  let start := dt_add now (td_minutes (start_date_offset_in_minutes t)) in
  let stop := dt_add start (td_minutes (duration_in_minutes t)) in
  mk_timer (duration_in_minutes t) (state t) (timezone_override t)
    (start_date_offset_in_minutes t)
    (if state t =? STATE.PAUSED then Some now else None)
    td_zero (Some start) (Some stop) (Some start) (Some stop)
    (duration_in_minutes t) (tenant t).

(** A computation that returns the instance it was given, whether it
    returns a value or raises. *)
Definition keeps_self {A} (m : M A) : Prop :=
  forall e : Env, self (snd (m e)) = self e.

(** ** Properties of an instance *)

(** The relations between the derived fields. *)
Definition derived_invariants (t : CountdownTimer) : Prop :=
  exists s : datetime,
    original_start_at t = Some s /\
    original_end_at t = Some (dt_add s (td_minutes (duration_in_minutes t))) /\
    modified_start_at t = Some (dt_add s (cumulative_pause_duration t)) /\
    modified_end_at t =
      Some (dt_add (dt_add s (td_minutes (duration_in_minutes t)))
                   (cumulative_pause_duration t)).

(** Once the start is set, the end is the start plus the remembered
    duration. *)
Definition armed_consistently (t : CountdownTimer) : Prop :=
  match original_start_at t with
  | None => True
  | Some s =>
      original_end_at t =
        Some (dt_add s (td_minutes (__original_duration_in_minutes t)))
  end.

(** The instances a program can hold when it leaves the managed fields to
    the model, as the source asks, and no write to the database has
    failed: a new record, then any sequence of assignments to the four
    configuration fields, of calls of [save] that returned and of other
    readings of the clock.  (A [save] that raises for an unknown zone
    changes nothing.) *)
Inductive reachable (utcnow : nat -> Z) (known_timezone : string -> bool)
    (model_save : CountdownTimer -> nat -> res unit) : Env -> Prop :=
| reach_new d st tzo off tn n :
    reachable utcnow known_timezone model_save
      (mk_env (__init__ d st tzo off tn) n)
| reach_duration e d :
    reachable utcnow known_timezone model_save e ->
    reachable utcnow known_timezone model_save
      (assign (set_duration_in_minutes d) e)
| reach_state e st :
    reachable utcnow known_timezone model_save e ->
    reachable utcnow known_timezone model_save (assign (set_state st) e)
| reach_timezone e tzo :
    reachable utcnow known_timezone model_save e ->
    reachable utcnow known_timezone model_save
      (assign (set_timezone_override tzo) e)
| reach_offset e off :
    reachable utcnow known_timezone model_save e ->
    reachable utcnow known_timezone model_save
      (assign (set_start_date_offset_in_minutes off) e)
| reach_clock e n :
    reachable utcnow known_timezone model_save e ->
    reachable utcnow known_timezone model_save (mk_env (self e) n)
| reach_save e :
    reachable utcnow known_timezone model_save e ->
    fst (save utcnow known_timezone model_save e) = Ok tt ->
    reachable utcnow known_timezone model_save
      (snd (save utcnow known_timezone model_save e)).

(** The tenant, when there is one and its call returns, returns the
    instant [now]. *)
Definition tenant_reads (now : Z) (e : Env) : Prop :=
  match tenant (self e) with
  | None => True
  | Some tn =>
      match fst (aware_now_dt tn (reads e)) with
      | Ok x => instant x = now
      | Raise _ => True
      end
  end.

(** ** The specification's formulas *)

(** Written after the specification: the pause in progress, and the
    remaining time [max(0, end - now)]. *)
Definition open_pause_delta (now : Z) (t : CountdownTimer) : timedelta :=
  if state t =? STATE.PAUSED then
    match paused_at t with
    | Some p => now - instant p
    | None => 0
    end
  else 0.

Definition remaining_spec (now : Z) (mend : datetime) (t : CountdownTimer)
    : timedelta :=
  Z.max 0 (instant mend + open_pause_delta now t - now).

(** Written after the specification: the minutes of the remainder of a
    duration within the hour. *)
Definition sub_hour_minutes (d : timedelta) : Z :=
  round_div (Z.abs (td_total_seconds d mod 3600)) 60.

(** Written after the specification: [time_elapsed] with the tenant's
    clock preferred to the built-in one. *)
Definition time_elapsed_tenant_first (utcnow : nat -> Z)
    (known_timezone : string -> bool) : M timedelta :=
  now_dt <- try_except tenant_aware_now_dt (_now_dt utcnow known_timezone) ;;
  d <- _conditional_pause_delta utcnow known_timezone ;;
  t <- get_self ;;
  start_dt <- dt_plus (original_start_at t) d ;;
  if dt_gt start_dt now_dt then ret td_zero
  else ret (dt_sub now_dt start_dt).

(** ** A run of the timer *)

Module Scenario.

Definition T0 : Z := 1700000000 * us_per_second.

(** The clock readings of the run, in minutes after [T0]: the first
    [save] reads once, the second once, the third twice (its own reading
    and the one of [_pause_delta]); every later reading is at 35
    minutes. *)
Definition clock (n : nat) : Z := T0 + td_minutes (nth n [0; 10; 25; 25] 35).

Definition zones (_ : string) : bool := true.

(** A database that accepts every write. *)
Definition writes (_ : CountdownTimer) (_ : nat) : res unit := Ok tt.

Definition saved (e : Env) : Env := snd (save clock zones writes e).

(** Created running with 60 minutes at [T0] and saved. *)
Definition armed : Env :=
  saved (mk_env (__init__ 60 STATE.RUNNING None 0 None) 0).

(** Paused at [T0 + 10] minutes. *)
Definition paused : Env := saved (assign (set_state STATE.PAUSED) armed).

(** Resumed at [T0 + 25] minutes. *)
Definition resumed : Env := saved (assign (set_state STATE.RUNNING) paused).

(** Saved while running, then [state] set to paused and not saved yet. *)
Definition pausing : Env := assign (set_state STATE.PAUSED) armed.

(** A tenant whose clock is five minutes behind the built-in one. *)
Definition late_tenant : Tenant :=
  mk_tenant (fun n => (Ok (mk_datetime (clock n - td_minutes 5) UTC), n)).

Definition with_tenant : Env := assign (set_tenant (Some late_tenant)) resumed.

(** Created running with 120 minutes and saved, at a frozen clock. *)
Definition frozen (_ : nat) : Z := T0.
Definition two_hours : Env :=
  snd (save frozen zones writes (mk_env (__init__ 120 STATE.RUNNING None 0 None) 0)).

(** The same timer, paused and saved at the frozen clock. *)
Definition held : Env :=
  snd (save frozen zones writes (assign (set_state STATE.PAUSED) two_hours)).

(** A database that refuses the write made after the second reading of
    the clock and accepts every other one. *)
Definition refuses_once (_ : CountdownTimer) (n : nat) : res unit :=
  if Nat.eqb n 2 then Raise DatabaseError else Ok tt.

(** Created with 60 minutes and saved; then the duration is set to 30 and
    the timer saved again, but this write is refused. *)
Definition shortened_in_vain : Env :=
  snd (save clock zones refuses_once
         (assign (set_duration_in_minutes 30)
            (snd (save clock zones refuses_once
                    (mk_env (__init__ 60 STATE.RUNNING None 0 None) 0))))).

(** The duration is then set back to 60. *)
Definition restored : Env :=
  assign (set_duration_in_minutes 60) shortened_in_vain.

(** A timer of 60 minutes whose duration was set to 30 after its last
    [save], in a named zone. *)
Definition shortened : Env :=
  assign (set_duration_in_minutes 30)
    (assign (set_timezone_override (Some "America/Toronto"%string)) paused).

End Scenario.

(** An instance the queries can work on: the zone resolves, the start and
    the modified end are set, and [paused_at] is set when the state is
    paused. *)
Definition ready (known_timezone : string -> bool) (t : CountdownTimer)
    : Prop :=
  (exists z, zone_of known_timezone t = Ok z) /\
  original_start_at t <> None /\
  modified_end_at t <> None /\
  (state t = STATE.PAUSED -> paused_at t <> None).

(** * Proofs *)

Ltac run :=
  cbv [save remaining_time remaining_time_at time_elapsed
       time_elapsed_since_beginning time_elapsed_tenant_first
       remaining_time_in_minutes time_elapsed_in_minutes
       time_elapsed_since_beginning_in_minutes remaining_future_datetime
       _pause_delta _conditional_pause_delta
       bind get_self update_self ret raise super_save
       dt_plus dt_minus dt_greater try_except tenant_aware_now_dt].

Lemma dt_add_zero (d : datetime) : dt_add d td_zero = d.
Proof.
  destruct d as [i z]. unfold dt_add, td_zero. cbn. now rewrite Z.add_0_r.
Qed.

Section Recalculation.

Variable utcnow : nat -> Z.
Variable known_timezone : string -> bool.
Variable model_save : CountdownTimer -> nat -> res unit.

Lemma now_dt_eq (e : Env) :
  _now_dt utcnow known_timezone e =
  match zone_of known_timezone (self e) with
  | Ok z => (Ok (mk_datetime (utcnow (reads e)) z),
             mk_env (self e) (S (reads e)))
  | Raise x => (Raise x, e)
  end.
Proof.
  unfold _now_dt, zone_of, bind, get_self, pytz_timezone.
  destruct (timezone_override (self e)) as [name|]; [|reflexivity].
  destruct (str_truthy name); [|reflexivity].
  destruct (known_timezone name); reflexivity.
Qed.

Lemma now_dt_inv (e e1 : Env) (now : datetime) :
  _now_dt utcnow known_timezone e = (Ok now, e1) ->
  zone_of known_timezone (self e) = Ok (tz now) /\
  instant now = utcnow (reads e) /\
  e1 = mk_env (self e) (S (reads e)).
Proof.
  rewrite now_dt_eq.
  destruct (zone_of known_timezone (self e)); intros H; inversion H; subst.
  cbn. auto.
Qed.

(** The zone does not depend on the managed fields. *)
Lemma zone_of_config (t t' : CountdownTimer) :
  timezone_override t' = timezone_override t ->
  zone_of known_timezone t' = zone_of known_timezone t.
Proof. unfold zone_of. now intros ->. Qed.

Lemma now_dt_raise (e : Env) (x : exn) :
  zone_of known_timezone (self e) = Raise x -> _now_dt utcnow known_timezone e = (Raise x, e).
Proof. intros H. now rewrite now_dt_eq, H. Qed.

(** A [save] that cannot read the clock changes nothing. *)
Lemma save_unknown_zone (e : Env) (x : exn) :
  zone_of known_timezone (self e) = Raise x -> save utcnow known_timezone model_save e = (Raise x, e).
Proof.
  intros H. unfold save. unfold bind at 1.
  now rewrite (now_dt_raise _ _ H).
Qed.

Ltac fields :=
  lazy beta iota zeta delta
    [duration_in_minutes state timezone_override
     start_date_offset_in_minutes paused_at cumulative_pause_duration
     original_start_at original_end_at modified_start_at modified_end_at
     __original_duration_in_minutes tenant
     set_duration_in_minutes set_state set_timezone_override
     set_start_date_offset_in_minutes set_paused_at
     set_cumulative_pause_duration set_original_start_at
     set_original_end_at set_modified_start_at set_modified_end_at
     set___original_duration_in_minutes set_tenant assign
     self reads fst snd negb andb].

(** Runs the blocks of [save] on an instance given field by field,
    with the two tests decided by [Hd] and [Hs]; the answer of the
    write is left open. *)
Ltac blocks Hd Hs :=
  unfold rearm_check; fields; rewrite ?Hd, ?Z.eqb_refl; fields;
  unfold arm; fields;
  unfold pause_step, leaves_pause; fields; rewrite ?Hs; fields;
  unfold remodify; fields.

(** Takes the two answers of the write in turn. *)
Ltac answer :=
  match goal with
  | |- context [model_save ?t ?n] => destruct (model_save t n) as [[]|?]
  end; fields.

Ltac open_timer e :=
  destruct e as [t n]; destruct t as [d st tzo off pa cum os oe ms me od tn].

(** [save], block by block. *)
Lemma save_steps (e : Env) :
  save utcnow known_timezone model_save e =
  match zone_of known_timezone (self e) with
  | Raise x => (Raise x, e)
  | Ok z =>
      let now := mk_datetime (utcnow (reads e)) z in
      let later := mk_datetime (utcnow (S (reads e))) z in
      let t3 := arm now (rearm_check (self e)) in
      let n := if leaves_pause t3 then S (S (reads e)) else S (reads e) in
      (fst (remodify model_save n (pause_step now later t3)),
       mk_env (snd (remodify model_save n (pause_step now later t3))) n)
  end.
Proof.
  destruct (zone_of known_timezone (self e)) as [z|x] eqn:Hz;
    [|now apply save_unknown_zone].
  open_timer e.
  unfold zone_of in Hz. cbn in Hz.
  assert (Hz' : forall t', timezone_override t' = tzo ->
                           zone_of known_timezone t' = Ok z)
    by (intros t' Ht; unfold zone_of; now rewrite Ht).
  clear Hz.
  run. rewrite now_dt_eq, Hz' by reflexivity.
  unfold rearm_check, arm, pause_step, leaves_pause, remodify.
  cbn -[_now_dt].
  destruct (d =? od); cbn -[_now_dt].
  - destruct os as [s|]; cbn -[_now_dt].
    + destruct (st =? STATE.PAUSED); cbn -[_now_dt].
      * destruct pa; cbn; destruct oe; try reflexivity;
          cbn; (destruct (model_save _ _) as [[]|?]; reflexivity).
      * destruct pa; cbn -[_now_dt];
          rewrite ?now_dt_eq, ?Hz' by reflexivity; cbn;
          destruct oe; try reflexivity;
          cbn; (destruct (model_save _ _) as [[]|?]; reflexivity).
    + destruct (st =? STATE.PAUSED); cbn -[_now_dt].
      * destruct pa; cbn; (destruct (model_save _ _) as [[]|?]; reflexivity).
      * destruct pa; cbn -[_now_dt];
          rewrite ?now_dt_eq, ?Hz' by reflexivity; cbn;
          (destruct (model_save _ _) as [[]|?]; reflexivity).
  - destruct (st =? STATE.PAUSED); cbn;
      (destruct (model_save _ _) as [[]|?]; reflexivity).
Qed.


(** The instance a [save] that finds the duration changed hands to the
    write, and what the [save] answers. *)
Lemma save_rearm_result (e : Env) (z : tzinfo) :
  zone_of known_timezone (self e) = Ok z ->
  duration_in_minutes (self e) <> __original_duration_in_minutes (self e) ->
  let now := mk_datetime (utcnow (reads e)) z in
  let t' := set___original_duration_in_minutes
              (__original_duration_in_minutes (self e))
              (rearmed now (self e)) in
  save utcnow known_timezone model_save e =
    match model_save t' (S (reads e)) with
    | Ok _ => (Ok tt, mk_env (rearmed now (self e)) (S (reads e)))
    | Raise x => (Raise x, mk_env t' (S (reads e)))
    end.
Proof.
  intros Hz Hd. apply Z.eqb_neq in Hd. cbv zeta.
  rewrite save_steps, Hz. open_timer e. cbn in Hd. unfold rearmed.
  destruct (st =? STATE.PAUSED) eqn:Hs;
    blocks Hd Hs; rewrite ?Hs, !dt_add_zero; answer; reflexivity.
Qed.

(** C1: when [duration_in_minutes] differs from the remembered value,
    [save] acts as on the instance with [original_start_at] and
    [paused_at] cleared and [cumulative_pause_duration] zero, and ends
    with [original_start_at = now + start_date_offset_in_minutes],
    [original_end_at = original_start_at + duration_in_minutes], a zero
    cumulative pause, the modified dates equal to the original ones and
    [paused_at] set to [now] only when the state is paused: nothing of
    the earlier progress is left.  These fields are set before the write;
    when the write returns, the [save] returns and the duration is
    remembered, and when the write raises the [save] raises the same and
    the remembered value stays. *)
Theorem save_rearms_on_duration_change (e e1 : Env) (now : datetime) :
  _now_dt utcnow known_timezone e = (Ok now, e1) ->
  duration_in_minutes (self e) <> __original_duration_in_minutes (self e) ->
  let t := self e in
  let start := dt_add now (td_minutes (start_date_offset_in_minutes t)) in
  let stop := dt_add start (td_minutes (duration_in_minutes t)) in
  let rearmed_remembering (remembered : Z) :=
    mk_timer (duration_in_minutes t) (state t) (timezone_override t)
      (start_date_offset_in_minutes t)
      (if state t =? STATE.PAUSED then Some now else None)
      td_zero (Some start) (Some stop) (Some start) (Some stop)
      remembered (tenant t) in
  save utcnow known_timezone model_save e =
    save utcnow known_timezone model_save
      (assign (fun t => set_cumulative_pause_duration td_zero
                          (set_paused_at None (set_original_start_at None t))) e) /\
  save utcnow known_timezone model_save e =
    match model_save (rearmed_remembering (__original_duration_in_minutes t))
                     (reads e1) with
    | Ok _ =>
        (Ok tt,
         mk_env (rearmed_remembering (duration_in_minutes t)) (reads e1))
    | Raise x =>
        (Raise x,
         mk_env (rearmed_remembering (__original_duration_in_minutes t))
                (reads e1))
    end.
Proof.
  intros Hn Hd t start stop rearmed_remembering.
  destruct (now_dt_inv _ _ _ Hn) as (Hz & Hi & ->).
  assert (Hnow : mk_datetime (utcnow (reads e)) (tz now) = now)
    by (destruct now; cbn in *; now subst).
  rewrite (save_rearm_result e (tz now) Hz Hd). cbv zeta. rewrite Hnow.
  split; [|reflexivity].
  rewrite (save_rearm_result _ (tz now)); [|exact Hz|exact Hd].
  cbv zeta. cbn [assign self reads]. rewrite Hnow. reflexivity.
Qed.

(** A [save] that returns keeps the dates consistent with the remembered
    duration. *)
Lemma save_keeps_consistency (e : Env) :
  armed_consistently (self e) ->
  fst (save utcnow known_timezone model_save e) = Ok tt ->
  armed_consistently (self (snd (save utcnow known_timezone model_save e))).
Proof.
  intros Hc. rewrite save_steps.
  destruct (zone_of known_timezone (self e)) as [z|x]; [|intros _; exact Hc].
  open_timer e. unfold armed_consistently in *. cbn in Hc.
  destruct (d =? od) eqn:Hd, (st =? STATE.PAUSED) eqn:Hs,
    os as [s|], pa as [p|], oe as [oe|];
    blocks Hd Hs; try discriminate;
    try (answer; intros H; try discriminate H; reflexivity).
  all: apply Z.eqb_eq in Hd; subst; answer; intros H; try discriminate H;
    exact Hc.
Qed.

Lemma reachable_consistent (e : Env) :
  reachable utcnow known_timezone model_save e -> armed_consistently (self e).
Proof.
  induction 1 as [ | e d _ IH | e st _ IH | e tzo _ IH | e off _ IH
                   | e n _ IH | e _ IH Hok ]; try exact IH.
  - exact I.
  - now apply save_keeps_consistency.
Qed.

Lemma save_establishes_invariants (e : Env) (z : tzinfo) :
  armed_consistently (self e) ->
  zone_of known_timezone (self e) = Ok z ->
  derived_invariants (self (snd (save utcnow known_timezone model_save e))) /\
  (fst (save utcnow known_timezone model_save e) = Ok tt \/
   exists t n, fst (save utcnow known_timezone model_save e) = model_save t n).
Proof.
  intros Hc Hz. rewrite save_steps, Hz.
  open_timer e. unfold armed_consistently, derived_invariants in *. cbn in Hc.
  destruct (d =? od) eqn:Hd, (st =? STATE.PAUSED) eqn:Hs,
    os as [s|], pa as [p|], oe as [oe|];
    blocks Hd Hs; try discriminate;
    try (apply Z.eqb_eq in Hd; inversion Hc; subst);
    (split;
     [ answer; eexists; repeat split
     | match goal with
       | |- context [model_save ?t ?n] =>
           destruct (model_save t n) as [[]|x] eqn:Hw; fields;
           [left; reflexivity | right; exists t, n; now rewrite Hw]
       end ]).
Qed.

(** C2 (amended): after a [save] of an instance whose managed fields were
    left to the model and none of whose earlier writes failed,
    [original_end_at] is [original_start_at] plus [duration_in_minutes]
    minutes, and [modified_start_at] and [modified_end_at] are
    [original_start_at] and [original_end_at] plus
    [cumulative_pause_duration], as soon as the time zone resolves and
    whether the write of this [save] returns or raises; and the [save]
    raises only what its write raises. *)
Theorem save_derived_invariants (e : Env) (z : tzinfo) :
  reachable utcnow known_timezone model_save e ->
  zone_of known_timezone (self e) = Ok z ->
  derived_invariants (self (snd (save utcnow known_timezone model_save e))) /\
  (fst (save utcnow known_timezone model_save e) = Ok tt \/
   exists t n, fst (save utcnow known_timezone model_save e) = model_save t n).
Proof.
  intros Hr Hz.
  exact (save_establishes_invariants e z (reachable_consistent e Hr) Hz).
Qed.


(** C5: on the instance as the re-arm check leaves it, [save] sets
    [paused_at] to [now] when the state is paused and [paused_at] is
    unset, leaves a set [paused_at] alone while the state stays paused,
    and, when the state is not paused and [paused_at] is set, adds the
    time from [paused_at] to the instant [_pause_delta] reads to
    [cumulative_pause_duration] and clears [paused_at]; otherwise both
    fields stay as they are.  All this whatever the write answers. *)
Theorem save_pause_transitions (e e1 : Env) (now : datetime) :
  _now_dt utcnow known_timezone e = (Ok now, e1) ->
  let t := rearm_check (self e) in
  let later := utcnow (reads e1) in
  let t' := self (snd (save utcnow known_timezone model_save e)) in
  (state t = STATE.PAUSED -> paused_at t = None ->
     paused_at t' = Some now /\
     cumulative_pause_duration t' = cumulative_pause_duration t) /\
  (state t = STATE.PAUSED -> forall p, paused_at t = Some p ->
     paused_at t' = Some p /\
     cumulative_pause_duration t' = cumulative_pause_duration t) /\
  (state t <> STATE.PAUSED -> forall p, paused_at t = Some p ->
     paused_at t' = None /\
     cumulative_pause_duration t' =
       cumulative_pause_duration t + (later - instant p)) /\
  (state t <> STATE.PAUSED -> paused_at t = None ->
     paused_at t' = None /\
     cumulative_pause_duration t' = cumulative_pause_duration t) /\
  (duration_in_minutes (self e) = __original_duration_in_minutes (self e) ->
     t = self e).
Proof.
  intros Hn t later t'.
  assert (Hsame : duration_in_minutes (self e) =
                  __original_duration_in_minutes (self e) -> t = self e).
  { intros Hd. subst t. unfold rearm_check. now rewrite Hd, Z.eqb_refl. }
  cut ((state t = STATE.PAUSED -> paused_at t = None ->
          paused_at t' = Some now /\
          cumulative_pause_duration t' = cumulative_pause_duration t) /\
       (state t = STATE.PAUSED -> forall p, paused_at t = Some p ->
          paused_at t' = Some p /\
          cumulative_pause_duration t' = cumulative_pause_duration t) /\
       (state t <> STATE.PAUSED -> forall p, paused_at t = Some p ->
          paused_at t' = None /\
          cumulative_pause_duration t' =
            cumulative_pause_duration t + (later - instant p)) /\
       (state t <> STATE.PAUSED -> paused_at t = None ->
          paused_at t' = None /\
          cumulative_pause_duration t' = cumulative_pause_duration t));
    [tauto|].
  clear Hsame.
  destruct (now_dt_inv _ _ _ Hn) as (Hz & Hi & ->).
  assert (Hnow : mk_datetime (utcnow (reads e)) (tz now) = now)
    by (destruct now; cbn in *; now subst).
  subst t t' later. rewrite save_steps, Hz, Hnow. clear Hn Hz Hi Hnow.
  open_timer e.
  destruct (d =? od) eqn:Hd, pa as [q|], os, oe;
    (destruct (st =? STATE.PAUSED) eqn:Hs;
     [apply Z.eqb_eq in Hs as Hs' | apply Z.eqb_neq in Hs as Hs']);
    blocks Hd Hs; try answer; unfold dt_sub; cbn [instant];
    repeat split; intros; try congruence.
  all: match goal with
       | H : Some _ = Some _ |- _ => inversion H; reflexivity
       end.
Qed.


End Recalculation.


(** ** Queries leave the instance alone *)

Create HintDb keeps discriminated.

Lemma keeps_ret {A} (a : A) : keeps_self (ret a).
Proof. intros e. reflexivity. Qed.

Lemma keeps_raise {A} (x : exn) : keeps_self (@raise A x).
Proof. intros e. reflexivity. Qed.

Lemma keeps_get_self : keeps_self get_self.
Proof. intros e. reflexivity. Qed.

Lemma keeps_bind {A B} (m : M A) (k : A -> M B) :
  keeps_self m -> (forall a, keeps_self (k a)) -> keeps_self (bind m k).
Proof.
  intros Hm Hk e. unfold bind.
  specialize (Hm e). destruct (m e) as [[a|x] e']; cbn in *.
  - now rewrite Hk.
  - exact Hm.
Qed.

Lemma keeps_try_except {A} (m h : M A) :
  keeps_self m -> keeps_self h -> keeps_self (try_except m h).
Proof.
  intros Hm Hh e. unfold try_except.
  specialize (Hm e). destruct (m e) as [[a|x] e']; cbn in *.
  - exact Hm.
  - now rewrite Hh.
Qed.

Lemma keeps_if {A} (b : bool) (m1 m2 : M A) :
  keeps_self m1 -> keeps_self m2 -> keeps_self (if b then m1 else m2).
Proof. now destruct b. Qed.

Lemma keeps_dt_minus a b : keeps_self (dt_minus a b).
Proof. intros e. destruct a, b; reflexivity. Qed.

Lemma keeps_dt_plus a d : keeps_self (dt_plus a d).
Proof. intros e. destruct a; reflexivity. Qed.

Lemma keeps_dt_greater a b : keeps_self (dt_greater a b).
Proof. intros e. destruct a, b; reflexivity. Qed.

Lemma keeps_tenant_aware_now_dt : keeps_self tenant_aware_now_dt.
Proof.
  intros e. unfold tenant_aware_now_dt.
  destruct (tenant (self e)) as [tn|]; [|reflexivity].
  now destruct (aware_now_dt tn (reads e)).
Qed.

#[local] Hint Resolve keeps_ret keeps_raise keeps_get_self keeps_dt_minus
  keeps_dt_plus keeps_dt_greater keeps_tenant_aware_now_dt : keeps.
(** Goes through a method, statement by statement. *)
Ltac keeps :=
  repeat first
    [ solve [auto with keeps]
    | apply keeps_bind; [|intro; cbv beta]
    | apply keeps_try_except
    | apply keeps_if
    | match goal with
      | |- keeps_self (match ?x with _ => _ end) => destruct x
      end ].

Section Queries.

Variable utcnow : nat -> Z.
Variable known_timezone : string -> bool.
Variable model_save : CountdownTimer -> nat -> res unit.

Lemma keeps_now_dt : keeps_self (_now_dt utcnow known_timezone).
Proof.
  intros e. rewrite now_dt_eq.
  now destruct (zone_of known_timezone (self e)).
Qed.
#[local] Hint Resolve keeps_now_dt : keeps.

Lemma keeps_conditional_pause_delta :
  keeps_self (_conditional_pause_delta utcnow known_timezone).
Proof. unfold _conditional_pause_delta. keeps. Qed.
#[local] Hint Resolve keeps_conditional_pause_delta : keeps.

Lemma keeps_remaining_time : keeps_self (remaining_time utcnow known_timezone).
Proof. unfold remaining_time. keeps. Qed.

Lemma keeps_time_elapsed : keeps_self (time_elapsed utcnow known_timezone).
Proof. unfold time_elapsed. keeps. Qed.

Lemma keeps_time_elapsed_since_beginning :
  keeps_self (time_elapsed_since_beginning utcnow known_timezone).
Proof. unfold time_elapsed_since_beginning. keeps. Qed.
#[local] Hint Resolve keeps_remaining_time keeps_time_elapsed
  keeps_time_elapsed_since_beginning : keeps.

(** C10: no query changes a field of the instance: after
    [remaining_time], [remaining_time_in_minutes],
    [remaining_future_datetime], [time_elapsed],
    [time_elapsed_in_minutes], [time_elapsed_since_beginning] and
    [time_elapsed_since_beginning_in_minutes], whether they return or
    raise, the instance is the one they were called on. *)
Theorem queries_keep_fields :
  keeps_self (remaining_time utcnow known_timezone) /\
  keeps_self (remaining_time_in_minutes utcnow known_timezone) /\
  keeps_self (remaining_future_datetime utcnow known_timezone) /\
  keeps_self (time_elapsed utcnow known_timezone) /\
  keeps_self (time_elapsed_in_minutes utcnow known_timezone) /\
  keeps_self (time_elapsed_since_beginning utcnow known_timezone) /\
  keeps_self (time_elapsed_since_beginning_in_minutes utcnow known_timezone).
Proof.
  unfold remaining_time_in_minutes, remaining_future_datetime,
    time_elapsed_in_minutes, time_elapsed_since_beginning_in_minutes.
  repeat split; keeps.
Qed.

End Queries.

Section QueryValues.

Variable utcnow : nat -> Z.
Variable known_timezone : string -> bool.
Variable model_save : CountdownTimer -> nat -> res unit.

(** [_conditional_pause_delta], case by case. *)
Lemma conditional_pause_delta_eq (e : Env) :
  _conditional_pause_delta utcnow known_timezone e =
  if state (self e) =? STATE.PAUSED then
    match zone_of known_timezone (self e) with
    | Raise x => (Raise x, e)
    | Ok z =>
        (match paused_at (self e) with
         | Some p => Ok (utcnow (reads e) - instant p)
         | None => Raise TypeError
         end, mk_env (self e) (S (reads e)))
    end
  else (Ok td_zero, e).
Proof.
  unfold _conditional_pause_delta, bind, get_self.
  destruct (state (self e) =? STATE.PAUSED); [|reflexivity].
  rewrite now_dt_eq.
  destruct (zone_of known_timezone (self e)) as [z|x]; [|reflexivity].
  cbn. destruct (paused_at (self e)); reflexivity.
Qed.

(** [remaining_time] is the choice of [now_dt] followed by the rest. *)
Lemma remaining_time_split :
  remaining_time utcnow known_timezone =
  bind (try_except tenant_aware_now_dt (_now_dt utcnow known_timezone))
       (remaining_time_at utcnow known_timezone).
Proof. reflexivity. Qed.

Lemma remaining_time_at_value (e : Env) (now_dt : datetime) (z : tzinfo)
    (mend : datetime) :
  zone_of known_timezone (self e) = Ok z ->
  modified_end_at (self e) = Some mend ->
  (state (self e) = STATE.PAUSED -> paused_at (self e) <> None) ->
  fst (remaining_time_at utcnow known_timezone now_dt e) =
    Ok (Z.max 0 (instant mend + open_pause_delta (utcnow (reads e)) (self e)
                 - instant now_dt)).
Proof.
  intros Hz Hm Hp.
  unfold remaining_time_at. unfold bind at 1.
  rewrite conditional_pause_delta_eq, Hz. unfold open_pause_delta.
  destruct (Z.eqb_spec (state (self e)) STATE.PAUSED) as [Hs|Hs].
  - specialize (Hp Hs). destruct (paused_at (self e)) as [p|]; [|congruence].
    cbn. rewrite Hm. cbn. unfold dt_gt, dt_sub, td_zero. cbn.
    destruct (Z.ltb_spec (instant mend + (utcnow (reads e) - instant p))
                         (instant now_dt)); cbn; f_equal; lia.
  - cbn. rewrite Hm. cbn. unfold dt_gt, dt_sub, td_zero. cbn.
    destruct (Z.ltb_spec (instant mend + 0) (instant now_dt));
      cbn; f_equal; lia.
Qed.

(** C3: at the instant [now], for an instance with [modified_end_at]
    set and [paused_at] set whenever the state is paused,
    [remaining_time] returns [max(0, end - now)] where [end] is
    [modified_end_at] plus the pause in progress ([now - paused_at]
    when paused, zero otherwise); it is zero as soon as [now > end] and
    never negative. *)
Theorem remaining_time_formula (e : Env) (now : Z) (z : tzinfo)
    (mend : datetime) :
  (forall n, utcnow n = now) ->
  zone_of known_timezone (self e) = Ok z ->
  tenant_reads now e ->
  modified_end_at (self e) = Some mend ->
  (state (self e) = STATE.PAUSED -> paused_at (self e) <> None) ->
  let end_ := instant mend + open_pause_delta now (self e) in
  fst (remaining_time utcnow known_timezone e) = Ok (Z.max 0 (end_ - now)) /\
  fst (remaining_time utcnow known_timezone e) = Ok (remaining_spec now mend (self e)) /\
  (now > end_ -> fst (remaining_time utcnow known_timezone e) = Ok td_zero) /\
  (forall d, fst (remaining_time utcnow known_timezone e) = Ok d -> 0 <= d).
Proof.
  intros Hclock Hz Ht Hm Hp end_.
  assert (Hv : fst (remaining_time utcnow known_timezone e) =
               Ok (Z.max 0 (end_ - now))).
  { rewrite remaining_time_split. unfold bind, try_except.
    unfold tenant_aware_now_dt. unfold tenant_reads in Ht.
    destruct (tenant (self e)) as [tn|].
    - destruct (aware_now_dt tn (reads e)) as [[x|x] n] eqn:Hcall; cbn in Ht.
      + rewrite (remaining_time_at_value _ x z mend); cbn; auto.
        subst end_. now rewrite Hclock, Ht.
      + rewrite now_dt_eq. cbn. rewrite Hz.
        rewrite (remaining_time_at_value _ _ z mend); cbn; auto.
        subst end_. now rewrite !Hclock.
    - rewrite now_dt_eq, Hz.
      rewrite (remaining_time_at_value _ _ z mend); cbn; auto.
      subst end_. now rewrite !Hclock. }
  repeat split.
  - exact Hv.
  - exact Hv.
  - intros Hgt. rewrite Hv. unfold td_zero. f_equal. lia.
  - intros d Hd. rewrite Hv in Hd. inversion Hd. lia.
Qed.

End QueryValues.

Section TenantClock.

Variable utcnow : nat -> Z.
Variable known_timezone : string -> bool.
Variable model_save : CountdownTimer -> nat -> res unit.

Lemma time_elapsed_eq (e : Env) :
  time_elapsed utcnow known_timezone e =
  match zone_of known_timezone (self e) with
  | Raise x => (Raise x, e)
  | Ok z =>
      let now_dt := mk_datetime (utcnow (reads e)) z in
      if state (self e) =? STATE.PAUSED then
        match paused_at (self e), original_start_at (self e) with
        | Some p, Some s =>
            let start_dt := dt_add s (utcnow (S (reads e)) - instant p) in
            (Ok (if dt_gt start_dt now_dt then td_zero
                 else dt_sub now_dt start_dt),
             mk_env (self e) (S (S (reads e))))
        | _, _ => (Raise TypeError, mk_env (self e) (S (S (reads e))))
        end
      else
        match original_start_at (self e) with
        | Some s =>
            let start_dt := dt_add s td_zero in
            (Ok (if dt_gt start_dt now_dt then td_zero
                 else dt_sub now_dt start_dt),
             mk_env (self e) (S (reads e)))
        | None => (Raise TypeError, mk_env (self e) (S (reads e)))
        end
  end.
Proof.
  unfold time_elapsed. unfold bind at 1. rewrite now_dt_eq.
  destruct (zone_of known_timezone (self e)) as [z|x] eqn:Hz; [|reflexivity].
  unfold bind at 1. rewrite conditional_pause_delta_eq. cbn [self reads].
  rewrite Hz.
  destruct (state (self e) =? STATE.PAUSED).
  - destruct (paused_at (self e)) as [p|]; cbn.
    + destruct (original_start_at (self e)) as [s|]; cbn; [|reflexivity].
      now destruct (dt_gt _ _).
    + now destruct (original_start_at (self e)).
  - cbn. destruct (original_start_at (self e)) as [s|]; cbn; [|reflexivity].
    now destruct (dt_gt _ _).
Qed.

Lemma time_elapsed_since_beginning_eq (e : Env) :
  time_elapsed_since_beginning utcnow known_timezone e =
  match zone_of known_timezone (self e) with
  | Raise x => (Raise x, e)
  | Ok z =>
      let now_dt := mk_datetime (utcnow (reads e)) z in
      (match original_start_at (self e) with
       | Some s => Ok (if dt_gt s now_dt then td_zero else dt_sub now_dt s)
       | None => Raise TypeError
       end, mk_env (self e) (S (reads e)))
  end.
Proof.
  unfold time_elapsed_since_beginning. unfold bind at 1. rewrite now_dt_eq.
  destruct (zone_of known_timezone (self e)) as [z|x]; [|reflexivity].
  cbn. destruct (original_start_at (self e)) as [s|]; cbn; [|reflexivity].
  now destruct (dt_gt _ _).
Qed.

(** C7 (amended): only [remaining_time] asks the tenant.  When the
    tenant's [aware_now_dt] returns, its value is the [now_dt] that
    [remaining_time] compares with the end; when the instance has no
    tenant or the call raises, [remaining_time] goes on with the
    built-in clock and the tenant's exception is dropped.
    [time_elapsed] and [time_elapsed_since_beginning] return the same
    value and read the clock as often whatever the tenant is. *)
Theorem tenant_clock_only_in_remaining_time (e : Env) :
  (forall tn x n, tenant (self e) = Some tn ->
     aware_now_dt tn (reads e) = (Ok x, n) ->
     remaining_time utcnow known_timezone e =
       remaining_time_at utcnow known_timezone x (mk_env (self e) n)) /\
  (forall tn x n, tenant (self e) = Some tn ->
     aware_now_dt tn (reads e) = (Raise x, n) ->
     remaining_time utcnow known_timezone e =
       bind (_now_dt utcnow known_timezone)
            (remaining_time_at utcnow known_timezone) (mk_env (self e) n)) /\
  (tenant (self e) = None ->
     remaining_time utcnow known_timezone e =
       bind (_now_dt utcnow known_timezone)
            (remaining_time_at utcnow known_timezone) e) /\
  (forall v,
     time_elapsed utcnow known_timezone (assign (set_tenant v) e) =
       (fst (time_elapsed utcnow known_timezone e),
        assign (set_tenant v) (snd (time_elapsed utcnow known_timezone e)))) /\
  (forall v,
     time_elapsed_since_beginning utcnow known_timezone (assign (set_tenant v) e) =
       (fst (time_elapsed_since_beginning utcnow known_timezone e),
        assign (set_tenant v)
          (snd (time_elapsed_since_beginning utcnow known_timezone e)))).
Proof.
  repeat split.
  - intros tn x n Htn Hcall. rewrite remaining_time_split.
    unfold bind at 1. unfold try_except, tenant_aware_now_dt.
    now rewrite Htn, Hcall.
  - intros tn x n Htn Hcall. rewrite remaining_time_split.
    unfold bind at 1. unfold try_except, tenant_aware_now_dt.
    rewrite Htn, Hcall. unfold bind.
    now destruct (_now_dt utcnow known_timezone _) as [[a|y] e'].
  - intros Htn. rewrite remaining_time_split.
    unfold bind at 1. unfold try_except, tenant_aware_now_dt.
    rewrite Htn. unfold bind.
    now destruct (_now_dt utcnow known_timezone e) as [[a|y] e'].
  - intros v. rewrite !time_elapsed_eq.
    rewrite (zone_of_config _ (self e)) by reflexivity.
    destruct e as [t n]. cbn.
    destruct (zone_of known_timezone t); [|reflexivity].
    destruct (state t =? STATE.PAUSED).
    + now destruct (paused_at t), (original_start_at t).
    + now destruct (original_start_at t).
  - intros v. rewrite !time_elapsed_since_beginning_eq.
    rewrite (zone_of_config _ (self e)) by reflexivity.
    destruct e as [t n]. cbn.
    now destruct (zone_of known_timezone t).
Qed.

End TenantClock.

(** ** Minutes *)

Lemma td_seconds_total (d : timedelta) :
  td_seconds d = td_total_seconds d mod 86400.
Proof.
  unfold td_seconds, td_total_seconds.
  replace us_per_day with (us_per_second * 86400) by reflexivity.
  rewrite Z.rem_mul_r by (unfold us_per_second; lia).
  rewrite (Z.mul_comm us_per_second), Z.div_add
    by (unfold us_per_second; lia).
  rewrite Z.div_small; [reflexivity|].
  apply Z.mod_pos_bound. reflexivity.
Qed.

Lemma td_seconds_range (d : timedelta) : 0 <= td_seconds d < 86400.
Proof. rewrite td_seconds_total. apply Z.mod_pos_bound. reflexivity. Qed.

Lemma td_seconds_days (d k : Z) : td_seconds (d + k * us_per_day) = td_seconds d.
Proof.
  unfold td_seconds. rewrite Z.mod_add; [reflexivity|]. discriminate.
Qed.

Lemma minutes_of_whole (m : Z) : 0 <= m < 1440 -> minutes_of (td_minutes m) = m.
Proof.
  intros Hm. unfold minutes_of.
  assert (Hs : td_seconds (td_minutes m) = m * 60).
  { unfold td_seconds, td_minutes.
    rewrite Z.mod_small
      by (unfold us_per_day, us_per_hour, us_per_minute, us_per_second; lia).
    unfold us_per_minute. rewrite Z.mul_assoc. apply Z.div_mul. discriminate. }
  rewrite Hs, Z.abs_eq by lia.
  unfold round_div. rewrite Z.div_mul, Z.mod_mul by discriminate.
  reflexivity.
Qed.

(** [round_div n 60] is the integer nearest to [n / 60], the even one of
    the two when [n] is half way. *)
Lemma round_div_60_nearest (n : Z) :
  0 <= n ->
  -30 <= 60 * round_div n 60 - n <= 30 /\
  (Z.abs (60 * round_div n 60 - n) = 30 -> Z.even (round_div n 60) = true).
Proof.
  intros Hn. unfold round_div.
  pose proof (Z.div_mod n 60 ltac:(discriminate)) as Hdiv.
  pose proof (Z.mod_pos_bound n 60 ltac:(reflexivity)) as Hmod.
  destruct (Z.ltb_spec (2 * (n mod 60)) 60);
    [split; lia|].
  destruct (Z.ltb_spec 60 (2 * (n mod 60))); [split; lia|].
  destruct (Z.even (n / 60)) eqn:Hq; (split; [lia|intros _]).
  - exact Hq.
  - rewrite Z.even_add, Hq. reflexivity.
Qed.

Section Minutes.

Variable utcnow : nat -> Z.
Variable known_timezone : string -> bool.
Variable model_save : CountdownTimer -> nat -> res unit.

(** C8 (amended): every in-minutes query returns
    [round(abs(d.seconds) / 60)] of the duration [d] its query returns,
    where [d.seconds] is the seconds of [d] within the day: the result is
    the whole number of minutes nearest to these seconds, the even one
    when they are half way between two; whole days are dropped, hours
    are not.  A duration of [m] whole minutes under a day gives [m]. *)
Theorem in_minutes_round_seconds_of_day (e : Env) (d : timedelta) (k m : Z) :
  0 <= m < 1440 ->
  remaining_time_in_minutes utcnow known_timezone e =
    (map_res minutes_of (fst (remaining_time utcnow known_timezone e)),
     snd (remaining_time utcnow known_timezone e)) /\
  time_elapsed_in_minutes utcnow known_timezone e =
    (map_res minutes_of (fst (time_elapsed utcnow known_timezone e)),
     snd (time_elapsed utcnow known_timezone e)) /\
  time_elapsed_since_beginning_in_minutes utcnow known_timezone e =
    (map_res minutes_of
       (fst (time_elapsed_since_beginning utcnow known_timezone e)),
     snd (time_elapsed_since_beginning utcnow known_timezone e)) /\
  minutes_of d = round_div (td_total_seconds d mod 86400) 60 /\
  (let seconds := td_total_seconds d mod 86400 in
   0 <= seconds < 86400 /\
   -30 <= 60 * minutes_of d - seconds <= 30 /\
   (Z.abs (60 * minutes_of d - seconds) = 30 ->
    Z.even (minutes_of d) = true)) /\
  minutes_of (d + k * us_per_day) = minutes_of d /\
  minutes_of (td_minutes m) = m.
Proof.
  intros Hm.
  pose proof (td_seconds_range d) as Hr.
  pose proof (round_div_60_nearest (td_seconds d) (proj1 Hr)) as Hnear.
  unfold remaining_time_in_minutes, time_elapsed_in_minutes,
    time_elapsed_since_beginning_in_minutes, bind.
  split; [|split; [|split; [|split; [|split; [|split]]]]].
  - now destruct (remaining_time utcnow known_timezone e) as [[a|x] e'].
  - now destruct (time_elapsed utcnow known_timezone e) as [[a|x] e'].
  - now destruct (time_elapsed_since_beginning utcnow known_timezone e)
      as [[a|x] e'].
  - unfold minutes_of. rewrite Z.abs_eq by apply td_seconds_range.
    now rewrite td_seconds_total.
  - cbv zeta. rewrite <- td_seconds_total. unfold minutes_of.
    rewrite Z.abs_eq by apply td_seconds_range.
    split; [exact Hr|exact Hnear].
  - unfold minutes_of. now rewrite td_seconds_days.
  - now apply minutes_of_whole.
Qed.

End Minutes.

(** ** The run of the specification *)

Module ScenarioFacts.
Import Scenario.

(** C4: in the run of the specification (armed at [T0] for 60 minutes,
    paused at [T0 + 10], resumed at [T0 + 25], so that the cumulative
    pause is 15 minutes), [time_elapsed] called at [T0 + 35] returns 35
    minutes, not 20: once the timer runs again the finished pause is
    counted as elapsed time, while [remaining_time] at the same instant
    is 40 minutes and [time_elapsed_since_beginning] is 35 minutes too. *)
Theorem time_elapsed_counts_finished_pause :
  cumulative_pause_duration (self resumed) = td_minutes 15 /\
  clock (reads resumed) = T0 + td_minutes 35 /\
  fst (time_elapsed clock zones resumed) = Ok (td_minutes 35) /\
  fst (time_elapsed clock zones resumed) <> Ok (td_minutes 20) /\
  fst (remaining_time clock zones resumed) = Ok (td_minutes 40) /\
  fst (time_elapsed_since_beginning clock zones resumed) = Ok (td_minutes 35).
Proof.
  repeat split; try (vm_compute; reflexivity).
  vm_compute. discriminate.
Qed.

(** C6: an instance saved while running and then set to paused, before
    the next [save], satisfies the relations between the derived
    fields, yet [remaining_time], [time_elapsed] and their in-minutes
    variants raise [TypeError] on it: [_conditional_pause_delta]
    subtracts the unset [paused_at] from the current instant. *)
Theorem queries_raise_between_pause_and_save :
  reachable clock zones writes pausing /\
  derived_invariants (self pausing) /\
  state (self pausing) = STATE.PAUSED /\
  paused_at (self pausing) = None /\
  fst (remaining_time clock zones pausing) = Raise TypeError /\
  fst (remaining_time_in_minutes clock zones pausing) = Raise TypeError /\
  fst (remaining_future_datetime clock zones pausing) = Raise TypeError /\
  fst (time_elapsed clock zones pausing) = Raise TypeError /\
  fst (time_elapsed_in_minutes clock zones pausing) = Raise TypeError /\
  fst (_pause_delta clock zones pausing) = Ok td_zero.
Proof.
  split; [|split].
  - unfold pausing, armed, saved.
    apply reach_state, reach_save; [apply reach_new|reflexivity].
  - eexists. vm_compute. repeat split.
  - repeat split; vm_compute; reflexivity.
Qed.

(** C2, as stated, fails: after a [save] whose write was refused when
    the duration had been changed from 60 to 30, and with the duration
    set back to 60, the next [save] returns and leaves an end 30 minutes
    after the start for a duration of 60 minutes. *)
Lemma stale_dates_after_refused_write :
  fst (save clock zones refuses_once restored) = Ok tt /\
  ~ derived_invariants (self (snd (save clock zones refuses_once restored))).
Proof.
  split; [vm_compute; reflexivity|].
  intros (s & Hs & He & _).
  vm_compute in Hs. inversion Hs; subst s. clear Hs.
  vm_compute in He. discriminate He.
Qed.

(** C7, as stated, fails: with a tenant whose clock is five minutes
    behind, [time_elapsed] does not return what it would with the
    tenant's instant as the current one. *)
Lemma time_elapsed_ignores_tenant :
  fst (time_elapsed clock zones with_tenant) <>
  fst (time_elapsed_tenant_first clock zones with_tenant).
Proof. vm_compute. discriminate. Qed.

(** C8, as stated, fails: a remaining time of two hours gives 120
    minutes, not the minutes of its remainder within the hour. *)
Lemma in_minutes_keeps_hours :
  fst (remaining_time_in_minutes frozen zones two_hours) <>
  map_res sub_hour_minutes (fst (remaining_time frozen zones two_hours)).
Proof. vm_compute. discriminate. Qed.

Lemma two_hours_in_minutes :
  fst (remaining_time frozen zones two_hours) = Ok (td_minutes 120) /\
  fst (remaining_time_in_minutes frozen zones two_hours) = Ok 120 /\
  sub_hour_minutes (td_minutes 120) = 0.
Proof. repeat split; vm_compute; reflexivity. Qed.

End ScenarioFacts.

(** ** The theorems at work on the run *)

Module Witnesses.
Import Scenario.

Lemma save_rearms_on_duration_change_witness :
  save clock zones writes shortened =
    (Ok tt,
     mk_env (rearmed (mk_datetime (clock 2) (Zone "America/Toronto"))
               (self shortened)) 3).
Proof.
  refine (proj2 (save_rearms_on_duration_change clock zones writes shortened
                   (mk_env (self shortened) 3)
                   (mk_datetime (clock 2) (Zone "America/Toronto")) _ _)).
  - reflexivity.
  - vm_compute. discriminate.
Defined.

Lemma save_derived_invariants_witness :
  derived_invariants (self (snd (save clock zones writes pausing))).
Proof.
  refine (proj1 (save_derived_invariants clock zones writes pausing UTC _ _)).
  - unfold pausing, armed, saved.
    apply reach_state, reach_save; [apply reach_new|reflexivity].
  - reflexivity.
Defined.


Lemma remaining_time_formula_witness :
  fst (remaining_time frozen zones held) = Ok (td_minutes 120).
Proof.
  refine (proj1 (remaining_time_formula frozen zones held T0 UTC
                   (mk_datetime (T0 + td_minutes 120) UTC) _ _ _ _ _)).
  - intros n. reflexivity.
  - reflexivity.
  - exact I.
  - reflexivity.
  - intros _. vm_compute. discriminate.
Defined.

Lemma save_pause_transitions_witness :
  paused_at (self resumed) = None /\
  cumulative_pause_duration (self resumed) = td_minutes 15.
Proof.
  assert (Hn : _now_dt clock zones (assign (set_state STATE.RUNNING) paused) =
               (Ok (mk_datetime (clock 2) UTC),
                mk_env (self (assign (set_state STATE.RUNNING) paused)) 3))
    by (vm_compute; reflexivity).
  pose proof (save_pause_transitions clock zones writes _ _ _ Hn) as H.
  cbv zeta in H. destruct H as (_ & _ & H & _).
  assert (Hs : state (rearm_check
                 (self (assign (set_state STATE.RUNNING) paused))) <>
               STATE.PAUSED) by (vm_compute; discriminate).
  specialize (H Hs (mk_datetime (T0 + td_minutes 10) UTC)).
  assert (Hp : paused_at (rearm_check
                 (self (assign (set_state STATE.RUNNING) paused))) =
               Some (mk_datetime (T0 + td_minutes 10) UTC))
    by (vm_compute; reflexivity).
  specialize (H Hp).
  vm_compute in H. vm_compute. exact H.
Defined.

Lemma tenant_clock_only_in_remaining_time_witness :
  remaining_time clock zones with_tenant =
    remaining_time_at clock zones
      (mk_datetime (clock 4 - td_minutes 5) UTC)
      (mk_env (self with_tenant) 4).
Proof.
  refine (proj1 (tenant_clock_only_in_remaining_time clock zones with_tenant)
            late_tenant _ 4%nat _ _).
  - reflexivity.
  - reflexivity.
Defined.

Lemma in_minutes_round_seconds_of_day_witness :
  0 <= 90 < 1440 /\ minutes_of (td_minutes 90) = 90.
Proof.
  assert (H : 0 <= 90 < 1440) by lia.
  split; [exact H|].
  exact (proj2 (proj2 (proj2 (proj2 (proj2 (proj2
    (in_minutes_round_seconds_of_day frozen zones two_hours 0 0 90 H))))))).
Defined.

End Witnesses.

(** * Further properties of the code *)

Ltac timer_fields :=
  lazy beta iota zeta delta
    [duration_in_minutes state timezone_override
     start_date_offset_in_minutes paused_at cumulative_pause_duration
     original_start_at original_end_at modified_start_at modified_end_at
     __original_duration_in_minutes tenant
     set_duration_in_minutes set_state set_timezone_override
     set_start_date_offset_in_minutes set_paused_at
     set_cumulative_pause_duration set_original_start_at
     set_original_end_at set_modified_start_at set_modified_end_at
     set___original_duration_in_minutes set_tenant assign
     self reads fst snd negb andb].

(** Runs the blocks of [save] one after the other on an instance given
    field by field; [tac] decides the two tests. *)
Ltac save_in_blocks tac :=
  unfold rearm_check; timer_fields; tac; timer_fields;
  unfold arm; timer_fields;
  unfold pause_step, leaves_pause; timer_fields; tac; timer_fields;
  unfold remodify; timer_fields.

Ltac timer_cases e :=
  destruct e as [t n];
  destruct t as [d st tzo off pa cum os oe ms me od tn].

Section SaveOutcome.

Variable utcnow : nat -> Z.
Variable known_timezone : string -> bool.
Variable model_save : CountdownTimer -> nat -> res unit.

(** X1: the first [save] of a new record arms it: the start is the
    current instant plus the offset, the end is the start plus the
    duration, nothing is accumulated, the modified dates are the original
    ones, and [paused_at] is the current instant when the record is
    created paused and unset otherwise; the [save] answers what the write
    of this instance answers. *)
Theorem first_save_arms (d st : Z) (tzo : option string) (off : Z)
    (tn : option Tenant) (n : nat) (z : tzinfo) :
  zone_of known_timezone (__init__ d st tzo off tn) = Ok z ->
  let armed :=
    rearmed (mk_datetime (utcnow n) z) (__init__ d st tzo off tn) in
  save utcnow known_timezone model_save (mk_env (__init__ d st tzo off tn) n) =
    (model_save armed (S n), mk_env armed (S n)).
Proof.
  intros Hz. cbv zeta. rewrite save_steps. cbn [self reads]. rewrite Hz.
  unfold __init__, rearmed.
  destruct (st =? STATE.PAUSED) eqn:Hs;
    save_in_blocks ltac:(rewrite ?Hs, ?Z.eqb_refl);
    rewrite !dt_add_zero;
    (destruct (model_save _ _) as [[]|?]; reflexivity).
Qed.

End SaveOutcome.

Section SaveFrame.

Variable utcnow : nat -> Z.
Variable known_timezone : string -> bool.
Variable model_save : CountdownTimer -> nat -> res unit.

(** X3: [save] never touches the configuration of the instance: the
    duration, the state, the zone override, the start offset and the
    tenant are after it what they were before, whether it returns or
    raises; and it reads the clock at most twice. *)
Theorem save_keeps_configuration (e : Env) :
  let e' := snd (save utcnow known_timezone model_save e) in
  duration_in_minutes (self e') = duration_in_minutes (self e) /\
  state (self e') = state (self e) /\
  timezone_override (self e') = timezone_override (self e) /\
  start_date_offset_in_minutes (self e') = start_date_offset_in_minutes (self e) /\
  tenant (self e') = tenant (self e) /\
  (reads e' = reads e \/ reads e' = S (reads e) \/
   reads e' = S (S (reads e))).
Proof.
  cbv zeta. rewrite save_steps.
  destruct (zone_of known_timezone (self e)) as [z|x].
  - timer_cases e.
    destruct (d =? od) eqn:Hd, (st =? STATE.PAUSED) eqn:Hs,
      os as [s|], pa as [p|], oe as [oe|];
      save_in_blocks ltac:(rewrite ?Hd, ?Hs);
    try (destruct (model_save _ _) as [[]|?]; timer_fields); auto 10.
  - cbn. repeat split. auto.
Qed.

(** X4: once the timer is armed and as long as the duration is the
    remembered one, [save] leaves [original_start_at] and
    [original_end_at] as they are: neither a pause, nor a later change of
    the start offset or of the zone, moves them. *)
Theorem save_freezes_original_dates (e : Env) (s : datetime) :
  duration_in_minutes (self e) = __original_duration_in_minutes (self e) ->
  original_start_at (self e) = Some s ->
  let e' := snd (save utcnow known_timezone model_save e) in
  original_start_at (self e') = Some s /\
  original_end_at (self e') = original_end_at (self e).
Proof.
  intros Hd Hs. cbv zeta. rewrite save_steps.
  destruct (zone_of known_timezone (self e)) as [z|x]; [|now split].
  timer_cases e. cbn in Hd, Hs. subst d os.
  destruct (st =? STATE.PAUSED) eqn:Hst, pa as [p|], oe as [oe|];
    save_in_blocks ltac:(rewrite ?Z.eqb_refl, ?Hst);
    try (destruct (model_save _ _) as [[]|?]; timer_fields); split; reflexivity.
Qed.

(** X5: after a [save] that could read the clock, [paused_at] is set
    exactly when the state is paused, also when the [save] raised later
    on. *)
Theorem save_pauses_iff_state (e : Env) (z : tzinfo) :
  zone_of known_timezone (self e) = Ok z ->
  let e' := snd (save utcnow known_timezone model_save e) in
  paused_at (self e') <> None <-> state (self e') = STATE.PAUSED.
Proof.
  intros Hz. cbv zeta. rewrite save_steps, Hz. clear Hz.
  timer_cases e.
  destruct (Z.eqb_spec st STATE.PAUSED) as [Hs|Hs];
    [apply Z.eqb_eq in Hs as Hs'|apply Z.eqb_neq in Hs as Hs'];
    destruct (d =? od) eqn:Hd, os as [s|], pa as [p|], oe as [oe|];
    save_in_blocks ltac:(rewrite ?Hd, ?Hs');
    try (destruct (model_save _ _) as [[]|?]; timer_fields);
    split; intros H; congruence.
Qed.

(** X6: a [save] that finds the duration unchanged never decreases
    [cumulative_pause_duration], provided the pause it closes did not
    start after the instant [_pause_delta] reads. *)
Theorem save_accumulates_pauses (e : Env) :
  duration_in_minutes (self e) = __original_duration_in_minutes (self e) ->
  (forall p, paused_at (self e) = Some p -> instant p <= utcnow (S (reads e))) ->
  cumulative_pause_duration (self e) <=
  cumulative_pause_duration (self (snd (save utcnow known_timezone model_save e))).
Proof.
  intros Hd Hp. rewrite save_steps.
  destruct (zone_of known_timezone (self e)) as [z|x]; [|cbn; lia].
  timer_cases e. cbn in Hd, Hp. subst d.
  destruct (st =? STATE.PAUSED) eqn:Hst, os as [s|], pa as [p|], oe as [oe|];
    save_in_blocks ltac:(rewrite ?Z.eqb_refl, ?Hst);
    try (destruct (model_save _ _) as [[]|?]; timer_fields); try lia.
  all: specialize (Hp p eq_refl); unfold dt_sub; cbn; lia.
Qed.

(** X7: after a [save] that returned, and until a field is changed, the
    instance is ready for the queries: the start and the modified end are
    set and [paused_at] is set when the state is paused. *)
Theorem save_makes_ready (e e' : Env) :
  save utcnow known_timezone model_save e = (Ok tt, e') ->
  ready known_timezone (self e') /\
  __original_duration_in_minutes (self e') = duration_in_minutes (self e').
Proof.
  rewrite save_steps. unfold ready.
  destruct (zone_of known_timezone (self e)) as [z|x] eqn:Hz; [|discriminate].
  timer_cases e.
  assert (Hz' : forall t', timezone_override t' = tzo ->
                           zone_of known_timezone t' = Ok z)
    by (intros t' Ht; rewrite <- Hz; now apply zone_of_config).
  clear Hz.
  destruct (Z.eqb_spec st STATE.PAUSED) as [Hs|Hs];
    [apply Z.eqb_eq in Hs as Hs'|apply Z.eqb_neq in Hs as Hs'];
    destruct (d =? od) eqn:Hd, os as [s|], pa as [p|], oe as [oe|];
    save_in_blocks ltac:(rewrite ?Hd, ?Hs');
    try (destruct (model_save _ _) as [[]|?]; timer_fields);
    intros H; inversion H; subst e'; clear H; timer_fields;
    (split; [split; [exists z; now apply Hz'|]|reflexivity]);
    repeat split; congruence.
Qed.

End SaveFrame.

Section QueryOutcome.

Variable utcnow : nat -> Z.
Variable known_timezone : string -> bool.
Variable model_save : CountdownTimer -> nat -> res unit.

(** The rest of [remaining_time], case by case. *)
Lemma remaining_time_at_eq (now_dt : datetime) (e : Env) :
  remaining_time_at utcnow known_timezone now_dt e =
  if state (self e) =? STATE.PAUSED then
    match zone_of known_timezone (self e) with
    | Raise x => (Raise x, e)
    | Ok z =>
        (match paused_at (self e), modified_end_at (self e) with
         | Some p, Some m =>
             Ok (Z.max 0 (instant m + (utcnow (reads e) - instant p)
                          - instant now_dt))
         | _, _ => Raise TypeError
         end, mk_env (self e) (S (reads e)))
    end
  else
    (match modified_end_at (self e) with
     | Some m => Ok (Z.max 0 (instant m - instant now_dt))
     | None => Raise TypeError
     end, e).
Proof.
  unfold remaining_time_at. unfold bind at 1.
  rewrite conditional_pause_delta_eq.
  destruct (state (self e) =? STATE.PAUSED).
  - destruct (zone_of known_timezone (self e)) as [z|x]; [|reflexivity].
    destruct (paused_at (self e)) as [p|]; cbn.
    + destruct (modified_end_at (self e)) as [m|]; cbn; [|reflexivity].
      unfold dt_gt, dt_sub, td_zero. cbn.
      destruct (Z.ltb_spec (instant m + (utcnow (reads e) - instant p))
                           (instant now_dt)); unfold ret; do 2 f_equal; lia.
    + now destruct (modified_end_at (self e)).
  - cbn. destruct (modified_end_at (self e)) as [m|]; cbn; [|reflexivity].
    unfold dt_gt, dt_sub, td_zero. cbn.
    destruct (Z.ltb_spec (instant m + 0) (instant now_dt));
      unfold ret; do 2 f_equal; lia.
Qed.

(** What [remaining_time] takes as [now_dt]: the tenant's value, or the
    reading of the built-in clock. *)
Lemma remaining_time_now (e : Env) (z : tzinfo) :
  zone_of known_timezone (self e) = Ok z ->
  exists x n,
    try_except tenant_aware_now_dt (_now_dt utcnow known_timezone) e =
      (Ok x, mk_env (self e) n) /\
    (tenant (self e) = None ->
     x = mk_datetime (utcnow (reads e)) z /\ n = S (reads e)) /\
    (forall now, (forall k, utcnow k = now) -> tenant_reads now e ->
     instant x = now).
Proof.
  intros Hz. unfold try_except, tenant_aware_now_dt, tenant_reads.
  destruct (tenant (self e)) as [tn|].
  - destruct (aware_now_dt tn (reads e)) as [[x|y] n] eqn:Hcall;
      cbn -[_now_dt].
    + exists x, n. repeat split; try discriminate. intros now _ H. exact H.
    + rewrite now_dt_eq. cbn. rewrite Hz.
      eexists _, _. repeat split; try discriminate.
      intros now Hk _. apply Hk.
  - rewrite now_dt_eq, Hz. eexists _, _. repeat split.
    intros now Hk _. apply Hk.
Qed.

(** X8: on an instance that is ready, every query returns a value: none
    of [remaining_time], [time_elapsed], [time_elapsed_since_beginning],
    their in-minutes variants and [remaining_future_datetime] raises,
    whatever the clock reads and whatever the tenant does. *)
Theorem ready_queries_return (e : Env) :
  ready known_timezone (self e) ->
  (exists v, fst (remaining_time utcnow known_timezone e) = Ok v) /\
  (exists v, fst (remaining_time_in_minutes utcnow known_timezone e) = Ok v) /\
  (exists v, fst (remaining_future_datetime utcnow known_timezone e) = Ok v) /\
  (exists v, fst (time_elapsed utcnow known_timezone e) = Ok v) /\
  (exists v, fst (time_elapsed_in_minutes utcnow known_timezone e) = Ok v) /\
  (exists v, fst (time_elapsed_since_beginning utcnow known_timezone e) = Ok v) /\
  (exists v, fst (time_elapsed_since_beginning_in_minutes utcnow known_timezone e)
             = Ok v).
Proof.
  intros ((z & Hz) & Hos & Hme & Hpa).
  assert (Hrem : exists v n, remaining_time utcnow known_timezone e =
                             (Ok v, mk_env (self e) n)).
  { rewrite remaining_time_split. unfold bind.
    destruct (remaining_time_now e z Hz) as (x & n & -> & _).
    rewrite remaining_time_at_eq. cbn [self reads]. rewrite Hz.
    destruct (modified_end_at (self e)) as [m|]; [|congruence].
    destruct (Z.eqb_spec (state (self e)) STATE.PAUSED) as [Hs|Hs].
    - specialize (Hpa Hs).
      destruct (paused_at (self e)) as [p|]; [|congruence].
      eexists _, _. reflexivity.
    - eexists _, _. reflexivity. }
  assert (Hel : exists v, fst (time_elapsed utcnow known_timezone e) = Ok v).
  { rewrite time_elapsed_eq, Hz.
    destruct (original_start_at (self e)) as [s|]; [|congruence].
    destruct (Z.eqb_spec (state (self e)) STATE.PAUSED) as [Hs|Hs].
    - specialize (Hpa Hs).
      destruct (paused_at (self e)) as [p|]; [|congruence].
      eexists. reflexivity.
    - eexists. reflexivity. }
  assert (Hsb : exists v, fst (time_elapsed_since_beginning
                                 utcnow known_timezone e) = Ok v).
  { rewrite time_elapsed_since_beginning_eq, Hz.
    destruct (original_start_at (self e)) as [s|]; [|congruence].
    eexists. reflexivity. }
  destruct Hrem as (r & n & Hrem). destruct Hel as (a & Hel).
  destruct Hsb as (b & Hsb).
  unfold remaining_future_datetime, remaining_time_in_minutes,
    time_elapsed_in_minutes, time_elapsed_since_beginning_in_minutes.
  unfold bind. rewrite Hrem.
  cbn -[_now_dt time_elapsed time_elapsed_since_beginning].
  rewrite now_dt_eq. cbn [self reads]. rewrite Hz.
  destruct (time_elapsed utcnow known_timezone e) as [ra ea].
  destruct (time_elapsed_since_beginning utcnow known_timezone e) as [rb eb].
  cbn in Hel, Hsb. subst ra rb. cbn.
  repeat split; eexists; reflexivity.
Qed.

(** X9: when the state is not paused, [time_elapsed] is
    [time_elapsed_since_beginning]: same value or same exception, same
    readings of the clock, whatever [cumulative_pause_duration] holds. *)
Theorem time_elapsed_is_since_beginning_unless_paused (e : Env) :
  state (self e) <> STATE.PAUSED ->
  time_elapsed utcnow known_timezone e =
  time_elapsed_since_beginning utcnow known_timezone e.
Proof.
  intros Hs. apply Z.eqb_neq in Hs.
  rewrite time_elapsed_eq, time_elapsed_since_beginning_eq, Hs.
  destruct (zone_of known_timezone (self e)) as [z|x]; [|reflexivity].
  cbv zeta. destruct (original_start_at (self e)) as [s|]; [|reflexivity].
  now rewrite dt_add_zero.
Qed.

(** X10: a pause freezes the countdown.  At any single instant [now], on
    an instance that is paused since [paused_at], [remaining_time] is
    [max(0, modified_end_at - paused_at)] and [time_elapsed] is
    [max(0, paused_at - original_start_at)], neither depending on [now],
    while [time_elapsed_since_beginning] is
    [max(0, now - original_start_at)]. *)
Theorem pause_freezes_the_countdown (e : Env) (now : Z) (z : tzinfo)
    (p m s : datetime) :
  (forall k, utcnow k = now) ->
  tenant_reads now e ->
  zone_of known_timezone (self e) = Ok z ->
  state (self e) = STATE.PAUSED ->
  paused_at (self e) = Some p ->
  modified_end_at (self e) = Some m ->
  original_start_at (self e) = Some s ->
  fst (remaining_time utcnow known_timezone e) =
    Ok (Z.max 0 (instant m - instant p)) /\
  fst (time_elapsed utcnow known_timezone e) =
    Ok (Z.max 0 (instant p - instant s)) /\
  fst (time_elapsed_since_beginning utcnow known_timezone e) =
    Ok (Z.max 0 (now - instant s)).
Proof.
  intros Hk Ht Hz Hs Hp Hm Hos. apply Z.eqb_eq in Hs as Hs'.
  repeat split.
  - rewrite remaining_time_split. unfold bind.
    destruct (remaining_time_now e z Hz) as (x & n & -> & _ & Hx).
    rewrite remaining_time_at_eq. cbn [self reads].
    rewrite Hs', Hz, Hp, Hm, (Hx now Hk Ht), Hk. cbn. f_equal. lia.
  - rewrite time_elapsed_eq, Hz, Hs', Hp, Hos. cbn.
    unfold dt_gt, dt_sub, td_zero. cbn. rewrite !Hk.
    destruct (Z.ltb_spec now (instant s + (now - instant p))); f_equal; lia.
  - rewrite time_elapsed_since_beginning_eq, Hz, Hos. cbn.
    unfold dt_gt, dt_sub, td_zero. cbn. rewrite !Hk.
    destruct (Z.ltb_spec now (instant s)); f_equal; lia.
Qed.

(** X11: while the timer runs, at an instant between the start and the
    modified end, [remaining_time] and [time_elapsed] add up to the
    duration plus the cumulative pause: the pauses already finished are
    counted by [time_elapsed]. *)
Theorem remaining_plus_elapsed (e : Env) (now : Z) (z : tzinfo)
    (s m : datetime) :
  (forall k, utcnow k = now) ->
  tenant_reads now e ->
  zone_of known_timezone (self e) = Ok z ->
  state (self e) <> STATE.PAUSED ->
  derived_invariants (self e) ->
  original_start_at (self e) = Some s ->
  modified_end_at (self e) = Some m ->
  instant s <= now <= instant m ->
  exists r a,
    fst (remaining_time utcnow known_timezone e) = Ok r /\
    fst (time_elapsed utcnow known_timezone e) = Ok a /\
    r + a = td_minutes (duration_in_minutes (self e)) +
            cumulative_pause_duration (self e).
Proof.
  intros Hk Ht Hz Hs (s' & Hos' & _ & _ & Hme) Hos Hm Hnow.
  apply Z.eqb_neq in Hs.
  rewrite Hos in Hos'. inversion Hos'; subst s'. clear Hos'.
  rewrite Hm in Hme. inversion Hme as [Hm']. clear Hme.
  exists (Z.max 0 (instant m - now)), (Z.max 0 (now - instant s)).
  repeat split.
  - rewrite remaining_time_split. unfold bind.
    destruct (remaining_time_now e z Hz) as (x & n & -> & _ & Hx).
    rewrite remaining_time_at_eq. cbn [self reads].
    now rewrite Hs, Hm, (Hx now Hk Ht).
  - rewrite time_elapsed_eq, Hz, Hs, Hos. cbn.
    unfold dt_gt, dt_sub, td_zero. cbn. rewrite !Hk.
    destruct (Z.ltb_spec now (instant s + 0)); f_equal; lia.
  - rewrite Hm' in *. unfold dt_add in *. cbn in *. lia.
Qed.

(** X12: with a tenant whose call returns and a state other than paused,
    [remaining_time] uses neither the built-in clock nor the zone
    override: it returns [max(0, modified_end_at - now)] for the tenant's
    [now], also when the zone name would not resolve. *)
Theorem remaining_time_by_tenant_alone (e : Env) (tn : Tenant)
    (x m : datetime) (n : nat) :
  tenant (self e) = Some tn ->
  aware_now_dt tn (reads e) = (Ok x, n) ->
  state (self e) <> STATE.PAUSED ->
  modified_end_at (self e) = Some m ->
  remaining_time utcnow known_timezone e =
    (Ok (Z.max 0 (instant m - instant x)), mk_env (self e) n).
Proof.
  intros Htn Hcall Hs Hm. apply Z.eqb_neq in Hs.
  rewrite remaining_time_split. unfold bind at 1.
  unfold try_except, tenant_aware_now_dt. rewrite Htn, Hcall.
  rewrite remaining_time_at_eq. cbn [self reads]. now rewrite Hs, Hm.
Qed.

(** X13: the countdown follows the clock.  For a running instance without
    tenant, a later reading of the clock gives a [remaining_time] that is
    not larger and a [time_elapsed_since_beginning] that is not smaller. *)
Theorem later_reading_counts_down (t : CountdownTimer) (n1 n2 : nat)
    (z : tzinfo) (s m : datetime) :
  zone_of known_timezone t = Ok z ->
  tenant t = None ->
  state t <> STATE.PAUSED ->
  original_start_at t = Some s ->
  modified_end_at t = Some m ->
  utcnow n1 <= utcnow n2 ->
  exists r1 r2 b1 b2,
    fst (remaining_time utcnow known_timezone (mk_env t n1)) = Ok r1 /\
    fst (remaining_time utcnow known_timezone (mk_env t n2)) = Ok r2 /\
    fst (time_elapsed_since_beginning utcnow known_timezone (mk_env t n1)) = Ok b1 /\
    fst (time_elapsed_since_beginning utcnow known_timezone (mk_env t n2)) = Ok b2 /\
    r2 <= r1 /\ b1 <= b2.
Proof.
  intros Hz Htn Hs Hos Hm Hle. apply Z.eqb_neq in Hs.
  exists (Z.max 0 (instant m - utcnow n1)), (Z.max 0 (instant m - utcnow n2)),
         (Z.max 0 (utcnow n1 - instant s)), (Z.max 0 (utcnow n2 - instant s)).
  assert (Hrem : forall k,
            fst (remaining_time utcnow known_timezone (mk_env t k)) =
            Ok (Z.max 0 (instant m - utcnow k))).
  { intros k. rewrite remaining_time_split. unfold bind.
    destruct (remaining_time_now (mk_env t k) z Hz) as (x & n & -> & Hx & _).
    destruct (Hx Htn) as (-> & ->).
    rewrite remaining_time_at_eq. cbn [self reads]. now rewrite Hs, Hm. }
  assert (Hsb : forall k,
            fst (time_elapsed_since_beginning utcnow known_timezone (mk_env t k)) =
            Ok (Z.max 0 (utcnow k - instant s))).
  { intros k. rewrite time_elapsed_since_beginning_eq. cbn [self reads].
    rewrite Hz, Hos. cbn. unfold dt_gt, dt_sub, td_zero. cbn.
    destruct (Z.ltb_spec (utcnow k) (instant s)); f_equal; lia. }
  rewrite !Hrem, !Hsb. repeat split; lia.
Qed.

End QueryOutcome.

(** ** Minutes, again *)

Lemma round_div_60_bounds (n : Z) :
  0 <= n < 86400 ->
  0 <= round_div n 60 <= 1440 /\ -30 <= 60 * round_div n 60 - n <= 30.
Proof.
  intros Hn. unfold round_div.
  pose proof (Z.div_mod n 60 ltac:(discriminate)) as Hdiv.
  pose proof (Z.mod_pos_bound n 60 ltac:(reflexivity)) as Hmod.
  destruct (Z.ltb_spec (2 * (n mod 60)) 60);
    [|destruct (Z.ltb_spec 60 (2 * (n mod 60)));
      [|destruct (Z.even (n / 60))]]; lia.
Qed.

Lemma minutes_of_bounds (d : timedelta) :
  0 <= minutes_of d <= 1440 /\
  -30 <= 60 * minutes_of d - td_seconds d <= 30.
Proof.
  unfold minutes_of. pose proof (td_seconds_range d) as Hr.
  rewrite Z.abs_eq by lia. now apply round_div_60_bounds.
Qed.

Lemma minutes_of_days (d k : Z) :
  minutes_of (d + k * us_per_day) = minutes_of d.
Proof. unfold minutes_of. now rewrite td_seconds_days. Qed.

Section Remainder.

Variable utcnow : nat -> Z.
Variable known_timezone : string -> bool.
Variable model_save : CountdownTimer -> nat -> res unit.

(** X14: whatever an in-minutes query returns lies between 0 and 1440,
    however long the duration behind it is, and is within half a minute
    of the seconds-of-day component of the duration its own underlying
    query returns: [remaining_time] for [remaining_time_in_minutes],
    [time_elapsed] for [time_elapsed_in_minutes] and
    [time_elapsed_since_beginning] for
    [time_elapsed_since_beginning_in_minutes]. *)
Theorem in_minutes_at_most_a_day (e : Env) (m : Z) :
  (fst (remaining_time_in_minutes utcnow known_timezone e) = Ok m ->
   0 <= m <= 1440 /\
   exists d : timedelta,
     fst (remaining_time utcnow known_timezone e) = Ok d /\
     -30 <= 60 * m - td_seconds d <= 30) /\
  (fst (time_elapsed_in_minutes utcnow known_timezone e) = Ok m ->
   0 <= m <= 1440 /\
   exists d : timedelta,
     fst (time_elapsed utcnow known_timezone e) = Ok d /\
     -30 <= 60 * m - td_seconds d <= 30) /\
  (fst (time_elapsed_since_beginning_in_minutes utcnow known_timezone e) = Ok m ->
   0 <= m <= 1440 /\
   exists d : timedelta,
     fst (time_elapsed_since_beginning utcnow known_timezone e) = Ok d /\
     -30 <= 60 * m - td_seconds d <= 30).
Proof.
  unfold remaining_time_in_minutes, time_elapsed_in_minutes,
    time_elapsed_since_beginning_in_minutes, bind.
  split; [|split]; intros H.
  - destruct (remaining_time utcnow known_timezone e) as [[d|x] e'];
      cbn in H; inversion H; subst m.
    split; [apply minutes_of_bounds|].
    exists d. split; [reflexivity|apply minutes_of_bounds].
  - destruct (time_elapsed utcnow known_timezone e) as [[d|x] e'];
      cbn in H; inversion H; subst m.
    split; [apply minutes_of_bounds|].
    exists d. split; [reflexivity|apply minutes_of_bounds].
  - destruct (time_elapsed_since_beginning utcnow known_timezone e)
      as [[d|x] e']; cbn in H; inversion H; subst m.
    split; [apply minutes_of_bounds|].
    exists d. split; [reflexivity|apply minutes_of_bounds].
Qed.

(** X15: [remaining_future_datetime] returns, in the zone of the
    instance, the next reading of the clock plus the rounded minutes of
    [remaining_time]: a date not before that reading and at most one day
    after it. *)
Theorem remaining_future_datetime_value (e e1 : Env) (d : timedelta)
    (z : tzinfo) :
  remaining_time utcnow known_timezone e = (Ok d, e1) ->
  zone_of known_timezone (self e) = Ok z ->
  let future := utcnow (reads e1) + td_minutes (minutes_of d) in
  remaining_future_datetime utcnow known_timezone e =
    (Ok (mk_datetime future z), mk_env (self e) (S (reads e1))) /\
  utcnow (reads e1) <= future <= utcnow (reads e1) + us_per_day.
Proof.
  intros Hrem Hz future.
  pose proof (keeps_remaining_time utcnow known_timezone e) as Hself.
  rewrite Hrem in Hself. cbn in Hself.
  split.
  - unfold remaining_future_datetime, remaining_time_in_minutes.
    unfold bind. rewrite Hrem. cbn -[_now_dt].
    rewrite now_dt_eq, Hself, Hz. reflexivity.
  - subst future. pose proof (minutes_of_bounds d) as [Hb _].
    unfold td_minutes, us_per_day, us_per_hour, us_per_minute, us_per_second.
    lia.
Qed.

(** X16: when the zone name does not resolve, [save] and the queries
    that read the built-in clock raise [UnknownTimeZoneError] before
    anything else happens: the clock is not read and no field changes. *)
Theorem unknown_zone_stops_everything (e : Env) (name : string) :
  timezone_override (self e) = Some name ->
  str_truthy name = true ->
  known_timezone name = false ->
  _now_dt utcnow known_timezone e = (Raise UnknownTimeZoneError, e) /\
  save utcnow known_timezone model_save e = (Raise UnknownTimeZoneError, e) /\
  time_elapsed utcnow known_timezone e = (Raise UnknownTimeZoneError, e) /\
  time_elapsed_since_beginning utcnow known_timezone e =
    (Raise UnknownTimeZoneError, e) /\
  (tenant (self e) = None ->
   remaining_time utcnow known_timezone e = (Raise UnknownTimeZoneError, e)) /\
  (paused_at (self e) <> None ->
   _pause_delta utcnow known_timezone e = (Raise UnknownTimeZoneError, e)).
Proof.
  intros Htz Hname Hknown.
  assert (Hz : zone_of known_timezone (self e) = Raise UnknownTimeZoneError)
    by (unfold zone_of; now rewrite Htz, Hname, Hknown).
  assert (Hnow : _now_dt utcnow known_timezone e =
                 (Raise UnknownTimeZoneError, e))
    by now apply now_dt_raise.
  repeat split.
  - exact Hnow.
  - now apply save_unknown_zone.
  - now rewrite time_elapsed_eq, Hz.
  - now rewrite time_elapsed_since_beginning_eq, Hz.
  - intros Htn. rewrite remaining_time_split. unfold bind, try_except.
    unfold tenant_aware_now_dt. now rewrite Htn, Hnow.
  - intros Hp. unfold _pause_delta. unfold bind at 1. unfold get_self.
    destruct (paused_at (self e)) as [p|]; [|congruence].
    unfold bind. now rewrite Hnow.
Qed.

Lemma pause_delta_eq (e : Env) :
  _pause_delta utcnow known_timezone e =
  match paused_at (self e) with
  | None => (Ok td_zero, e)
  | Some p =>
      match zone_of known_timezone (self e) with
      | Ok z => (Ok (utcnow (reads e) - instant p),
                 mk_env (self e) (S (reads e)))
      | Raise x => (Raise x, e)
      end
  end.
Proof.
  unfold _pause_delta. unfold bind at 1. unfold get_self.
  destruct (paused_at (self e)) as [p|] eqn:Hp; [|reflexivity].
  unfold bind. rewrite now_dt_eq.
  destruct (zone_of known_timezone (self e)) as [z|x]; [|reflexivity].
  cbn. now rewrite Hp.
Qed.

(** X17: [_pause_delta] never raises [TypeError]: with [paused_at] unset
    it returns the zero duration without reading the clock, otherwise
    the time from [paused_at] to the reading it makes. *)
Theorem pause_delta_guarded (e : Env) :
  (paused_at (self e) = None ->
   _pause_delta utcnow known_timezone e = (Ok td_zero, e)) /\
  (forall p z, paused_at (self e) = Some p ->
     zone_of known_timezone (self e) = Ok z ->
     _pause_delta utcnow known_timezone e =
       (Ok (utcnow (reads e) - instant p), mk_env (self e) (S (reads e)))) /\
  fst (_pause_delta utcnow known_timezone e) <> Raise TypeError.
Proof.
  rewrite pause_delta_eq. repeat split.
  - now intros ->.
  - now intros p z -> ->.
  - destruct (paused_at (self e)) as [p|]; [|discriminate].
    destruct (zone_of known_timezone (self e)) as [z|x] eqn:Hz;
      [discriminate|].
    cbn. unfold zone_of in Hz.
    destruct (timezone_override (self e)) as [name|]; [|discriminate].
    destruct (str_truthy name); [|discriminate].
    destruct (known_timezone name); congruence.
Qed.

End Remainder.

(** X18: for a cumulative pause of [k] whole minutes, [k] under a day,
    plus any number of whole days, [_cumulative_pause_duration_in_minutes]
    returns [k]: the whole days of pause are not counted.  It reads no
    clock and leaves the instance as it is. *)
Theorem cumulative_pause_in_minutes (e : Env) (k j : Z) :
  0 <= k < 1440 ->
  cumulative_pause_duration (self e) = td_minutes k + j * us_per_day ->
  _cumulative_pause_duration_in_minutes e = (Ok k, e).
Proof.
  intros Hk Hc. unfold _cumulative_pause_duration_in_minutes, bind, get_self, ret.
  now rewrite Hc, (minutes_of_days (td_minutes k) j), minutes_of_whole.
Qed.

(** Replaces the zone of an instance given field by field by what [H]
    says of its zone override. *)
Ltac resolve_zones H :=
  repeat match goal with
         | |- context [zone_of _ ?t] =>
             first [ rewrite (proj1 (H t) eq_refl)
                   | rewrite (proj2 (H t) eq_refl) ]
         end.

Section Composition.

Variable utcnow : nat -> Z.
Variable known_timezone : string -> bool.
Variable model_save : CountdownTimer -> nat -> res unit.

(** X19: the zone override changes no duration.  Replacing it by any
    other value that resolves leaves what [remaining_time],
    [time_elapsed] and [time_elapsed_since_beginning] return as it is. *)
Theorem zone_override_leaves_durations (e : Env) (v : option string)
    (z z' : tzinfo) :
  zone_of known_timezone (self e) = Ok z ->
  zone_of known_timezone (set_timezone_override v (self e)) = Ok z' ->
  let e' := assign (set_timezone_override v) e in
  fst (remaining_time utcnow known_timezone e') =
    fst (remaining_time utcnow known_timezone e) /\
  fst (time_elapsed utcnow known_timezone e') =
    fst (time_elapsed utcnow known_timezone e) /\
  fst (time_elapsed_since_beginning utcnow known_timezone e') =
    fst (time_elapsed_since_beginning utcnow known_timezone e).
Proof.
  intros Hz Hz' e'. subst e'.
  assert (Hzone : forall t', timezone_override t' = timezone_override (self e) ->
                             zone_of known_timezone t' = Ok z)
    by (intros t' Ht; rewrite <- Hz; now apply zone_of_config).
  assert (Hzone' : forall t', timezone_override t' = v ->
                              zone_of known_timezone t' = Ok z')
    by (intros t' Ht; rewrite <- Hz'; now apply zone_of_config).
  clear Hz Hz'. timer_cases e. cbn [self timezone_override] in Hzone.
  assert (Hzones : forall t',
            (timezone_override t' = tzo -> zone_of known_timezone t' = Ok z) /\
            (timezone_override t' = v -> zone_of known_timezone t' = Ok z'))
    by (intros t'; split; auto).
  clear Hzone Hzone'.
  repeat split.
  - rewrite !remaining_time_split. unfold bind, try_except.
    unfold tenant_aware_now_dt. timer_fields.
    destruct tn as [tn|].
    + destruct (aware_now_dt tn n) as [[x|y] k].
      * rewrite !remaining_time_at_eq. timer_fields.
        resolve_zones Hzones.
        destruct (st =? STATE.PAUSED); reflexivity.
      * rewrite !now_dt_eq. timer_fields.
        resolve_zones Hzones.
        rewrite !remaining_time_at_eq. timer_fields.
        resolve_zones Hzones.
        destruct (st =? STATE.PAUSED); reflexivity.
    + rewrite !now_dt_eq. timer_fields.
      resolve_zones Hzones.
      rewrite !remaining_time_at_eq. timer_fields.
      resolve_zones Hzones.
      destruct (st =? STATE.PAUSED); reflexivity.
  - rewrite !time_elapsed_eq. timer_fields.
    resolve_zones Hzones.
    destruct (st =? STATE.PAUSED); [now destruct pa, os|now destruct os].
  - rewrite !time_elapsed_since_beginning_eq. timer_fields.
    resolve_zones Hzones.
    destruct (st =? STATE.PAUSED); reflexivity.
Qed.

(** X20: a pause and its end.  On a running, armed instance, setting the
    state to paused and saving, then setting it to a state other than
    paused and saving again, adds to [cumulative_pause_duration] exactly
    the time between the reading of the first [save] and the reading
    [_pause_delta] makes in the second, moves the modified end by as
    much, leaves the original dates alone and clears [paused_at]; and
    [remaining_time] asked at the instant of the resumption is what it
    was at the instant of the pause. *)
Theorem pause_resume_round_trip (e : Env) (z : tzinfo) (s stop : datetime)
    (st' : Z) :
  zone_of known_timezone (self e) = Ok z ->
  duration_in_minutes (self e) = __original_duration_in_minutes (self e) ->
  original_start_at (self e) = Some s ->
  original_end_at (self e) = Some stop ->
  state (self e) <> STATE.PAUSED ->
  paused_at (self e) = None ->
  st' <> STATE.PAUSED ->
  let e1 := snd (save utcnow known_timezone model_save (assign (set_state STATE.PAUSED) e)) in
  let e2 := snd (save utcnow known_timezone model_save (assign (set_state st') e1)) in
  let gap := utcnow (S (S (reads e))) - utcnow (reads e) in
  let total := cumulative_pause_duration (self e) + gap in
  reads e1 = S (reads e) /\
  paused_at (self e1) = Some (mk_datetime (utcnow (reads e)) z) /\
  cumulative_pause_duration (self e1) = cumulative_pause_duration (self e) /\
  reads e2 = S (S (S (reads e))) /\
  paused_at (self e2) = None /\
  cumulative_pause_duration (self e2) = total /\
  modified_end_at (self e2) = Some (dt_add stop total) /\
  original_start_at (self e2) = Some s /\
  original_end_at (self e2) = Some stop /\
  (tenant (self e) = None ->
   modified_end_at (self e) =
     Some (dt_add stop (cumulative_pause_duration (self e))) ->
   forall k1 k2,
     utcnow k1 = utcnow (reads e) ->
     utcnow k2 = utcnow (S (S (reads e))) ->
     fst (remaining_time utcnow known_timezone (mk_env (self e2) k2)) =
     fst (remaining_time utcnow known_timezone (mk_env (self e) k1))).
Proof.
  intros Hz Hd Hos Hoe Hs Hp Hs'.
  apply Z.eqb_neq in Hs as Hsb. apply Z.eqb_neq in Hs' as Hsb'.
  timer_cases e. cbn in Hd, Hos, Hoe, Hp, Hsb. subst d os oe pa.
  assert (Hzone : forall t', timezone_override t' = tzo ->
                             zone_of known_timezone t' = Ok z)
    by (intros t' Ht; rewrite <- Hz; now apply zone_of_config).
  cbv zeta.
  rewrite (save_steps utcnow known_timezone model_save
             (assign (set_state STATE.PAUSED) _)).
  unfold assign at 2 4 6 8 10 12 14 16 18 20.
  timer_fields. rewrite Hzone by reflexivity.
  save_in_blocks ltac:(rewrite ?Z.eqb_refl).
  destruct (model_save _ _) as [[]|?]; timer_fields;
    (rewrite save_steps; timer_fields; rewrite Hzone by reflexivity;
     save_in_blocks ltac:(rewrite ?Z.eqb_refl, ?Hsb');
     destruct (model_save _ _) as [[]|?]; timer_fields;
     unfold dt_sub; cbn [instant];
     repeat split;
     intros -> -> k1 k2 Hk1 Hk2;
     rewrite !remaining_time_split; unfold bind, try_except;
     unfold tenant_aware_now_dt; cbn [self reads tenant];
     rewrite !now_dt_eq; cbn [self reads];
     rewrite !Hzone by reflexivity;
     rewrite !remaining_time_at_eq; cbn [self reads state modified_end_at];
     rewrite Hsb, Hsb'; cbn [fst]; unfold dt_add; cbn [instant];
     rewrite Hk1, Hk2; f_equal; lia).
Qed.

(** X21: a new timer at its first instant.  Created with a duration and
    an offset that are not negative, saved, and asked at the instant of
    the [save], it has the offset plus the duration left and nothing
    elapsed, in either state. *)
Theorem new_timer_at_its_first_instant (d st : Z) (tzo : option string)
    (off : Z) (n : nat) (now : Z) (z : tzinfo) :
  (forall k, utcnow k = now) ->
  zone_of known_timezone (__init__ d st tzo off None) = Ok z ->
  0 <= d -> 0 <= off ->
  let e1 := snd (save utcnow known_timezone model_save
                   (mk_env (__init__ d st tzo off None) n)) in
  fst (remaining_time utcnow known_timezone e1) = Ok (td_minutes (off + d)) /\
  fst (time_elapsed utcnow known_timezone e1) = Ok td_zero /\
  fst (time_elapsed_since_beginning utcnow known_timezone e1) = Ok td_zero.
Proof.
  intros Hk Hz Hd Hoff.
  assert (Hzone : forall t', timezone_override t' = tzo ->
                             zone_of known_timezone t' = Ok z)
    by (intros t' Ht; rewrite <- Hz; now apply zone_of_config).
  assert (Hmin : 0 <= td_minutes off /\ 0 <= td_minutes d /\
                 td_minutes (off + d) = td_minutes off + td_minutes d).
  { unfold td_minutes, us_per_minute, us_per_second. lia. }
  destruct Hmin as (Ho & Hd' & Hsum).
  cbv zeta. rewrite save_steps. cbn [self reads]. rewrite Hz.
  unfold __init__.
  destruct (st =? STATE.PAUSED) eqn:Hs;
    save_in_blocks ltac:(rewrite ?Hs, ?Z.eqb_refl);
    try (destruct (model_save _ _) as [[]|?]; timer_fields);
    (repeat split;
     [ rewrite remaining_time_split; unfold bind, try_except;
       unfold tenant_aware_now_dt; cbn [self reads tenant];
       rewrite now_dt_eq; cbn [self reads]; rewrite Hzone by reflexivity;
       rewrite remaining_time_at_eq;
       cbn [self reads state paused_at modified_end_at];
       rewrite Hs, ?Hzone by reflexivity
     | rewrite time_elapsed_eq; cbn [self reads];
       rewrite Hzone by reflexivity;
       cbn [self reads state paused_at original_start_at]; rewrite Hs
     | rewrite time_elapsed_since_beginning_eq; cbn [self reads];
       rewrite Hzone by reflexivity;
       cbn [self reads original_start_at] ]);
    cbn [fst]; unfold dt_gt, dt_sub, dt_add, td_zero; cbn [instant];
    rewrite ?Hk, ?Hsum;
    repeat match goal with
           | |- context [?a <? ?b] => destruct (Z.ltb_spec a b)
           end;
    f_equal; lia.
Qed.

End Composition.

(** ** These properties on the run *)

Module MoreWitnesses.
Import Scenario.

Lemma first_save_arms_witness :
  save clock zones writes (mk_env (__init__ 60 STATE.RUNNING None 0 None) 0) =
    (Ok tt,
     mk_env (rearmed (mk_datetime (clock 0) UTC)
               (__init__ 60 STATE.RUNNING None 0 None)) 1).
Proof.
  apply (first_save_arms clock zones writes 60 STATE.RUNNING None 0 None 0 UTC).
  reflexivity.
Defined.

Lemma save_freezes_original_dates_witness :
  original_start_at (self (snd (save clock zones writes pausing))) =
    Some (mk_datetime T0 UTC) /\
  original_end_at (self (snd (save clock zones writes pausing))) =
    original_end_at (self pausing).
Proof.
  apply (save_freezes_original_dates clock zones writes pausing (mk_datetime T0 UTC));
    vm_compute; reflexivity.
Defined.

Lemma save_pauses_iff_state_witness :
  paused_at (self (snd (save clock zones writes pausing))) <> None <->
  state (self (snd (save clock zones writes pausing))) = STATE.PAUSED.
Proof.
  apply (save_pauses_iff_state clock zones writes pausing UTC).
  vm_compute. reflexivity.
Defined.

Lemma save_accumulates_pauses_witness :
  cumulative_pause_duration (self (assign (set_state STATE.RUNNING) paused)) <=
  cumulative_pause_duration
    (self (snd (save clock zones writes (assign (set_state STATE.RUNNING) paused)))).
Proof.
  apply (save_accumulates_pauses clock zones writes
           (assign (set_state STATE.RUNNING) paused)).
  - vm_compute. reflexivity.
  - intros p Hp. vm_compute in Hp. inversion Hp. vm_compute. discriminate.
Defined.

Lemma save_makes_ready_witness :
  ready zones (self paused) /\
  __original_duration_in_minutes (self paused) =
    duration_in_minutes (self paused).
Proof.
  apply (save_makes_ready clock zones writes pausing paused).
  vm_compute. reflexivity.
Defined.

Lemma ready_queries_return_witness :
  exists v, fst (time_elapsed clock zones paused) = Ok v.
Proof.
  assert (H : ready zones (self paused)).
  { split; [exists UTC; vm_compute; reflexivity|].
    repeat split; vm_compute; discriminate. }
  exact (proj1 (proj2 (proj2 (proj2
           (ready_queries_return clock zones paused H))))).
Defined.

Lemma time_elapsed_is_since_beginning_unless_paused_witness :
  time_elapsed clock zones resumed =
  time_elapsed_since_beginning clock zones resumed.
Proof.
  apply (time_elapsed_is_since_beginning_unless_paused clock zones resumed).
  vm_compute. discriminate.
Defined.

Lemma pause_freezes_the_countdown_witness :
  fst (remaining_time frozen zones held) =
    Ok (Z.max 0 (instant (mk_datetime (T0 + td_minutes 120) UTC) -
                 instant (mk_datetime T0 UTC))).
Proof.
  refine (proj1 (pause_freezes_the_countdown frozen zones held T0 UTC
                   (mk_datetime T0 UTC)
                   (mk_datetime (T0 + td_minutes 120) UTC)
                   (mk_datetime T0 UTC) _ _ _ _ _ _ _)).
  - intros k. reflexivity.
  - exact I.
  - vm_compute. reflexivity.
  - vm_compute. reflexivity.
  - vm_compute. reflexivity.
  - vm_compute. reflexivity.
  - vm_compute. reflexivity.
Defined.

Lemma remaining_plus_elapsed_witness :
  exists r a,
    fst (remaining_time frozen zones two_hours) = Ok r /\
    fst (time_elapsed frozen zones two_hours) = Ok a /\
    r + a = td_minutes (duration_in_minutes (self two_hours)) +
            cumulative_pause_duration (self two_hours).
Proof.
  apply (remaining_plus_elapsed frozen zones two_hours T0 UTC
           (mk_datetime T0 UTC) (mk_datetime (T0 + td_minutes 120) UTC)).
  - intros k. reflexivity.
  - exact I.
  - vm_compute. reflexivity.
  - vm_compute. discriminate.
  - exists (mk_datetime T0 UTC). vm_compute. repeat split.
  - vm_compute. reflexivity.
  - vm_compute. reflexivity.
  - vm_compute. split; discriminate.
Defined.

Lemma remaining_time_by_tenant_alone_witness :
  remaining_time clock zones with_tenant =
    (Ok (Z.max 0 (instant (mk_datetime (T0 + td_minutes 75) UTC) -
                  instant (mk_datetime (clock 4 - td_minutes 5) UTC))),
     mk_env (self with_tenant) 4).
Proof.
  apply (remaining_time_by_tenant_alone clock zones with_tenant late_tenant).
  - reflexivity.
  - reflexivity.
  - vm_compute. discriminate.
  - vm_compute. reflexivity.
Defined.

Lemma later_reading_counts_down_witness :
  exists r1 r2 b1 b2,
    fst (remaining_time clock zones (mk_env (self resumed) 1)) = Ok r1 /\
    fst (remaining_time clock zones (mk_env (self resumed) 4)) = Ok r2 /\
    fst (time_elapsed_since_beginning clock zones (mk_env (self resumed) 1)) =
      Ok b1 /\
    fst (time_elapsed_since_beginning clock zones (mk_env (self resumed) 4)) =
      Ok b2 /\
    r2 <= r1 /\ b1 <= b2.
Proof.
  apply (later_reading_counts_down clock zones (self resumed) 1 4 UTC
           (mk_datetime T0 UTC) (mk_datetime (T0 + td_minutes 75) UTC)).
  - vm_compute. reflexivity.
  - vm_compute. reflexivity.
  - vm_compute. discriminate.
  - vm_compute. reflexivity.
  - vm_compute. reflexivity.
  - vm_compute. discriminate.
Defined.

Lemma in_minutes_at_most_a_day_witness :
  0 <= 120 <= 1440 /\
  exists d : timedelta,
    fst (remaining_time frozen zones two_hours) = Ok d /\
    -30 <= 60 * 120 - td_seconds d <= 30.
Proof.
  apply (proj1 (in_minutes_at_most_a_day frozen zones two_hours 120)).
  vm_compute. reflexivity.
Defined.

Lemma remaining_future_datetime_value_witness :
  remaining_future_datetime frozen zones two_hours =
    (Ok (mk_datetime (frozen 2 + td_minutes (minutes_of (td_minutes 120))) UTC),
     mk_env (self two_hours) 3).
Proof.
  refine (proj1 (remaining_future_datetime_value frozen zones two_hours
                   (mk_env (self two_hours) 2) (td_minutes 120) UTC _ _)).
  - vm_compute. reflexivity.
  - vm_compute. reflexivity.
Defined.

Lemma unknown_zone_stops_everything_witness :
  save clock (fun _ => false) writes shortened = (Raise UnknownTimeZoneError, shortened).
Proof.
  refine (proj1 (proj2 (unknown_zone_stops_everything clock (fun _ => false) writes
                          shortened "America/Toronto" _ _ _))).
  - vm_compute. reflexivity.
  - reflexivity.
  - reflexivity.
Defined.

Lemma cumulative_pause_in_minutes_witness :
  _cumulative_pause_duration_in_minutes resumed = (Ok 15, resumed).
Proof.
  apply (cumulative_pause_in_minutes resumed 15 0).
  - lia.
  - vm_compute. reflexivity.
Defined.

Lemma zone_override_leaves_durations_witness :
  fst (time_elapsed clock zones
         (assign (set_timezone_override (Some "America/Toronto"%string)) resumed)) =
  fst (time_elapsed clock zones resumed).
Proof.
  refine (proj1 (proj2 (zone_override_leaves_durations clock zones resumed
                          (Some "America/Toronto"%string) UTC
                          (Zone "America/Toronto") _ _))).
  - vm_compute. reflexivity.
  - vm_compute. reflexivity.
Defined.

Lemma pause_resume_round_trip_witness :
  cumulative_pause_duration (self resumed) = td_minutes 15.
Proof.
  assert (H1 : zone_of zones (self armed) = Ok UTC)
    by (vm_compute; reflexivity).
  assert (H2 : duration_in_minutes (self armed) =
               __original_duration_in_minutes (self armed))
    by (vm_compute; reflexivity).
  assert (H3 : original_start_at (self armed) = Some (mk_datetime T0 UTC))
    by (vm_compute; reflexivity).
  assert (H4 : original_end_at (self armed) =
               Some (mk_datetime (T0 + td_minutes 60) UTC))
    by (vm_compute; reflexivity).
  assert (H5 : state (self armed) <> STATE.PAUSED)
    by (vm_compute; discriminate).
  assert (H6 : paused_at (self armed) = None) by (vm_compute; reflexivity).
  assert (H7 : STATE.RUNNING <> STATE.PAUSED) by (vm_compute; discriminate).
  pose proof (pause_resume_round_trip clock zones writes armed UTC _ _ STATE.RUNNING
                H1 H2 H3 H4 H5 H6 H7) as K.
  cbv zeta in K. destruct K as (_ & _ & _ & _ & _ & K & _).
  vm_compute in K. vm_compute. exact K.
Defined.

Lemma new_timer_at_its_first_instant_witness :
  fst (remaining_time frozen zones two_hours) = Ok (td_minutes (0 + 120)).
Proof.
  refine (proj1 (new_timer_at_its_first_instant frozen zones writes 120 STATE.RUNNING
                   None 0 0 T0 UTC _ _ _ _)).
  - intros k. reflexivity.
  - reflexivity.
  - lia.
  - lia.
Defined.

End MoreWitnesses.
